(** * mySahara backend: the text-normalisation core

    A shallow embedding of the parsers and rule tables of the mySahara
    backend (api/health.py, api/family_insights.py, services/ai_service.py,
    services/ocr_service.py) together with the properties the specification
    states about them.

    Python strings are sequences of Unicode code points; they are modelled
    as lists of [N].  The parts of Python's Unicode database the code
    consults outside the ASCII range (case mapping, digit and alphanumeric
    classes) are parameters of the development; their ASCII behaviour is
    written out. *)

From Stdlib Require Import Ascii String.
From Stdlib Require Import List NArith ZArith Bool Lia.
Import ListNotations.

Set Implicit Arguments.

(** ** Python strings *)

Module Py.

Local Open Scope N_scope.

Definition char := N.
Definition str := list char.

Definition of_string (s : string) : str :=
  map N_of_ascii (list_ascii_of_string s).

Definition chr_eqb : char -> char -> bool := N.eqb.

Fixpoint str_eqb (a b : str) : bool :=
  match a, b with
  | [], [] => true
  | x :: a', y :: b' => chr_eqb x y && str_eqb a' b'
  | _, _ => false
  end.

(** [c in chars] for a one-character [c]. *)
Definition mem (c : char) (chars : str) : bool := existsb (chr_eqb c) chars.

(** [s.startswith(p)] *)
Fixpoint startswith (p s : str) : bool :=
  match p, s with
  | [], _ => true
  | x :: p', y :: s' => chr_eqb x y && startswith p' s'
  | _ :: _, [] => false
  end.

(** [needle in hay] *)
Fixpoint contains (needle hay : str) : bool :=
  startswith needle hay ||
  match hay with
  | [] => false
  | _ :: hay' => contains needle hay'
  end.

(** [sep.join(parts)] *)
Fixpoint join (sep : str) (parts : list str) : str :=
  match parts with
  | [] => []
  | [p] => p
  | p :: rest => p ++ sep ++ join sep rest
  end.

(** [s.split(sep)] for a one-character separator: never empty, an empty
    field between two adjacent separators. *)
Fixpoint split (sep : char) (s : str) : list str :=
  match s with
  | [] => [[]]
  | c :: s' =>
      if chr_eqb c sep then [] :: split sep s'
      else match split sep s' with
           | f :: fs => (c :: f) :: fs
           | [] => [[c]]
           end
  end.

(** [s.split(sep, 1)]: at most one cut, at the first separator. *)
Fixpoint split1 (sep : char) (s : str) : list str :=
  match s with
  | [] => [[]]
  | c :: s' =>
      if chr_eqb c sep then [[]; s']
      else match split1 sep s' with
           | f :: fs => (c :: f) :: fs
           | [] => [[c]]
           end
  end.

(** [Py_UNICODE_ISSPACE]: the characters [str.strip()] removes and the
    regular-expression class [\s] accepts. *)
Definition isspace (c : char) : bool :=
  ((0x09 <=? c) && (c <=? 0x0D)) || ((0x1C <=? c) && (c <=? 0x20)) ||
  (c =? 0x85) || (c =? 0xA0) || (c =? 0x1680) ||
  ((0x2000 <=? c) && (c <=? 0x200A)) || (c =? 0x2028) || (c =? 0x2029) ||
  (c =? 0x202F) || (c =? 0x205F) || (c =? 0x3000).

Fixpoint dropwhile (p : char -> bool) (s : str) : str :=
  match s with
  | [] => []
  | c :: s' => if p c then dropwhile p s' else s
  end.

Definition lstrip_by (p : char -> bool) (s : str) : str := dropwhile p s.
Definition rstrip_by (p : char -> bool) (s : str) : str :=
  rev (dropwhile p (rev s)).

(** [s.strip()] *)
Definition strip (s : str) : str := rstrip_by isspace (lstrip_by isspace s).

(** [s.lstrip(chars)] *)
Definition lstrip (chars : str) (s : str) : str :=
  lstrip_by (fun c => mem c chars) s.

(** [s.replace(old, "")] for a one-character [old]. *)
Definition remove_char (old : char) (s : str) : str :=
  filter (fun c => negb (chr_eqb c old)) s.

Definition is_ascii (c : char) : bool := c <? 128.

Definition ascii_lower (c : char) : char :=
  if (65 <=? c) && (c <=? 90) then c + 32 else c.

Definition ascii_isdigit (c : char) : bool := (48 <=? c) && (c <=? 57).

Definition ascii_isalnum (c : char) : bool :=
  ascii_isdigit c || ((65 <=? c) && (c <=? 90)) || ((97 <=? c) && (c <=? 122)).

End Py.

Import Py.

Notation "` s" := (of_string s) (at level 1, format "` s").

(** ** Parameters taken from Python's Unicode database

    [lower_ext before after c] is what [str.lower()] writes for the
    non-ASCII code point [c] standing between [before] and [after] (the
    context matters for the final sigma only); [isdigit_ext],
    [todecimal_ext] and [isalnum_ext] are [str.isdigit], the decimal digit
    value and [str.isalnum] outside ASCII. *)

Section Backend.

Local Open Scope N_scope.

Variable lower_ext : str -> str -> char -> str.
Variable isdigit_ext : char -> bool.
Variable todecimal_ext : char -> option N.
Variable isalnum_ext : char -> bool.

Fixpoint lower_from (before s : str) : str :=
  match s with
  | [] => []
  | c :: s' =>
      (if is_ascii c then [ascii_lower c] else lower_ext before s' c)
        ++ lower_from (before ++ [c]) s'
  end.

(** [s.lower()] *)
Definition lower (s : str) : str := lower_from [] s.

(** [c.isdigit()] for a one-character string *)
Definition isdigit (c : char) : bool :=
  if is_ascii c then ascii_isdigit c else isdigit_ext c.

(** [Py_UNICODE_TODECIMAL]: the value of a decimal digit, if it is one. *)
Definition todecimal (c : char) : option N :=
  if is_ascii c then (if ascii_isdigit c then Some (c - 48) else None)
  else todecimal_ext c.

Definition isalnum (c : char) : bool :=
  if is_ascii c then ascii_isalnum c else isalnum_ext c.

(** ** api/health.py: [_determine_risk_level] *)

Definition emergency_symptoms : list str :=
  [`"chest pain"; `"difficulty breathing"; `"severe bleeding";
   `"loss of consciousness"; `"seizure"; `"stroke symptoms"].

Definition opt_str_eqb (o : option str) (s : str) : bool :=
  match o with
  | Some x => str_eqb x s
  | None => false
  end.

Definition _determine_risk_level (symptoms : list str)
    (severity : option str) : str :=
  let symptoms_lower := map lower symptoms in
  if existsb (fun em => contains em (join `" " symptoms_lower))
       emergency_symptoms
  then `"high"
  else if opt_str_eqb severity `"severe" then `"high"
  else if opt_str_eqb severity `"moderate" || (3 <? length symptoms)%nat
  then `"medium"
  else `"low".

(** ** Python values and exceptions *)

(** The values a JSON-decoded [Dict[str, Any]] holds.  Floating-point
    numbers are kept abstract ([pyfloat], with their truth value, their
    comparison with an integer and their [str()]); [VObj] stands for any
    other object (a list, a nested dict) with its truth value and its
    [str()]. *)
Variable pyfloat : Type.
Variable float_truthy : pyfloat -> bool.
Variable float_gt : pyfloat -> Z -> bool.
Variable float_str : pyfloat -> str.

Inductive value :=
| VNone
| VBool (b : bool)
| VInt (z : Z)
| VFloat (f : pyfloat)
| VStr (s : str)
| VObj (truthy : bool) (text : str).

Definition dict := list (str * value).

(** [d.get(key)] *)
Fixpoint get (d : dict) (key : str) : value :=
  match d with
  | [] => VNone
  | (k, v) :: d' => if str_eqb k key then v else get d' key
  end.

(** [d.get(key, default)] *)
Fixpoint get_default (d : dict) (key : str) (default : value) : value :=
  match d with
  | [] => default
  | (k, v) :: d' => if str_eqb k key then v else get_default d' key default
  end.

Definition truthy (v : value) : bool :=
  match v with
  | VNone => false
  | VBool b => b
  | VInt z => negb (z =? 0)%Z
  | VFloat f => float_truthy f
  | VStr s => negb (str_eqb s [])
  | VObj t _ => t
  end.

Fixpoint digits_of (fuel : nat) (n : N) (acc : str) : str :=
  match fuel with
  | O => acc
  | S fuel' =>
      let acc' := (48 + n mod 10) :: acc in
      if n / 10 =? 0 then acc' else digits_of fuel' (n / 10) acc'
  end.

Definition str_of_N (n : N) : str := digits_of (S (N.size_nat n)) n [].

Definition str_of_Z (z : Z) : str :=
  match z with
  | Zneg p => 45 :: str_of_N (Npos p)
  | _ => str_of_N (Z.to_N z)
  end.

(** [str(v)].  An int is written out in full, which is what [str()]
    returns while the decimal form is within the interpreter's digit limit
    (see [py_int] below; beyond it CPython raises a [ValueError] instead).
    The ints among the values are taken within that limit. *)
Definition py_str (v : value) : str :=
  match v with
  | VNone => `"None"
  | VBool true => `"True"
  | VBool false => `"False"
  | VInt z => str_of_Z z
  | VFloat f => float_str f
  | VStr s => s
  | VObj _ text => text
  end.

(** [ValueError] carries the literal [int()] could not read, the other
    two their message. *)
Inductive exn :=
| ValueError (literal : str)
| AttributeError (msg : str)
| Exception (msg : str).

(** A computation that returns or raises. *)
Definition result (A : Type) := sum exn A.

Definition bind {A B} (m : result A) (k : A -> result B) : result B :=
  match m with
  | inl e => inl e
  | inr a => k a
  end.

Notation "x <- m ;; k" := (bind m (fun x => k))
  (at level 61, m at next level, right associativity).

(** *** [int(s)]

    As CPython reads a [str] in base 10: outside ASCII, white space counts
    as a blank and a decimal digit as its ASCII digit; blanks around the
    number are skipped, one sign is allowed, and the digits may be grouped
    by single underscores.  Anything else is a [ValueError].

    A well-formed literal is still refused, with a [ValueError], when it
    is too long: CPython counts its digits (signs and underscores apart,
    leading zeros included) and, above 640 of them, compares the count
    with the interpreter's [int_max_str_digits].  That setting is 4300
    unless changed, and 0 switches the check off, as in the interpreters
    that predate it. *)

Variable int_max_str_digits : N.

Definition exceeds_digit_limit (digits : N) : bool :=
  (640 <? digits) && (0 <? int_max_str_digits)
  && (int_max_str_digits <? digits).

Definition c_isspace (c : char) : bool :=
  ((0x09 <=? c) && (c <=? 0x0D)) || (c =? 0x20).

Definition all_ascii (s : str) : bool := forallb is_ascii s.

Definition transform_decimal_and_space (s : str) : str :=
  if all_ascii s then s
  else map (fun c =>
              if c <? 127 then c
              else if isspace c then 0x20
              else match todecimal c with
                   | Some d => 48 + d
                   | None => 63
                   end) s.

(** Digits with single underscores between them, up to the end of [s];
    [prev_digit] tells whether the previous character was a digit. *)
Fixpoint int_digits (s : str) (prev_digit : bool) (acc : Z) : option Z :=
  match s with
  | [] => if prev_digit then Some acc else None
  | c :: s' =>
      if ascii_isdigit c then int_digits s' true (10 * acc + Z.of_N (c - 48))%Z
      else if c =? 95 then
        if prev_digit then int_digits s' false acc else None
      else None
  end.

Definition py_int (s : str) : result Z :=
  let t := transform_decimal_and_space s in
  let t := rstrip_by c_isspace (lstrip_by c_isspace t) in
  let parsed :=
    match t with
    | 43 :: t' => int_digits t' false 0%Z
    | 45 :: t' => option_map Z.opp (int_digits t' false 0%Z)
    | _ => int_digits t false 0%Z
    end in
  match parsed with
  | Some z =>
      if exceeds_digit_limit (N.of_nat (length (filter ascii_isdigit t)))
      then inl (ValueError s)
      else inr z
  | None => inl (ValueError s)
  end.

(** ** api/health.py: [_extract_risk_factors] *)

Record risk_factor := { factor : str; impact : str }.

(** [bmi] has passed [isinstance(bmi, (int, float))]; [bool] is a subclass
    of [int]. *)
Definition num_gt (v : value) (bound : Z) : option bool :=
  match v with
  | VBool b => Some (bound <? (if b then 1 else 0))%Z
  | VInt z => Some (bound <? z)%Z
  | VFloat f => Some (float_gt f bound)
  | _ => None
  end.

Definition bmi_factors (health_metrics : dict) : list risk_factor :=
  let bmi := get health_metrics `"bmi" in
  if truthy bmi then
    match num_gt bmi 30, num_gt bmi 25 with
    | Some true, _ =>
        [{| factor := `"High BMI (Obesity)"; impact := `"high" |}]
    | Some false, Some true =>
        [{| factor := `"Overweight"; impact := `"medium" |}]
    | _, _ => []
    end
  else [].

Definition blood_pressure_factors (health_metrics : dict)
    : result (list risk_factor) :=
  let bp := get health_metrics `"blood_pressure" in
  if truthy bp && contains `"/" (py_str bp) then
    systolic <- py_int (hd [] (split 47 (py_str bp))) ;;
    if (140 <? systolic)%Z
    then inr [{| factor := `"High Blood Pressure"; impact := `"high" |}]
    else inr []
  else inr [].

Definition history_factors (medical_history : list str) : list risk_factor :=
  map (fun condition =>
         {| factor := `"History of " ++ condition; impact := `"medium" |})
      medical_history.

Definition lifestyle_risk_factors (lifestyle_factors : dict)
    : list risk_factor :=
  (if truthy (get lifestyle_factors `"smoking")
   then [{| factor := `"Smoking"; impact := `"high" |}] else [])
  ++
  (let exercise := get_default lifestyle_factors `"exercise" (VStr []) in
   if contains `"sedentary" (lower (py_str exercise))
      || contains `"none" (lower (py_str exercise))
   then [{| factor := `"Sedentary Lifestyle"; impact := `"medium" |}]
   else []).

(** An absent (or [None]) argument is [None]; an empty dict or list is
    falsy as well. *)
Definition _extract_risk_factors (health_metrics : option dict)
    (medical_history : option (list str)) (lifestyle_factors : option dict)
    : result (list risk_factor) :=
  metrics <-
    match health_metrics with
    | Some ((_ :: _) as hm) =>
        bp <- blood_pressure_factors hm ;;
        inr (bmi_factors hm ++ bp)
    | _ => inr []
    end ;;
  let history :=
    match medical_history with
    | Some mh => history_factors mh
    | None => []
    end in
  let lifestyle :=
    match lifestyle_factors with
    | Some ((_ :: _) as lf) => lifestyle_risk_factors lf
    | _ => []
    end in
  inr (metrics ++ history ++ lifestyle).

(** ** api/family_insights.py: [_extract_recommendations] *)

Definition bullet : char := 0x2022.

Definition default_recommendations : list str :=
  [`"Maintain regular health check-ups for all family members";
   `"Keep medical records organized and up-to-date";
   `"Monitor chronic conditions as prescribed";
   `"Promote healthy lifestyle habits across the family"].

(** The test on a stripped line: non-empty, and its first character is a
    digit, a dash or a bullet. *)
Definition is_list_item (line : str) : bool :=
  match line with
  | [] => false
  | c :: _ => isdigit c || startswith `"-" line || startswith [bullet] line
  end.

Definition enumerator_chars : str := `"0123456789.-" ++ [bullet; 32; 32].

Fixpoint collect_recommendations (lines : list str) : list str :=
  match lines with
  | [] => []
  | line :: rest =>
      let line := strip line in
      if is_list_item line then
        let clean_line := lstrip enumerator_chars line in
        match clean_line with
        | [] => collect_recommendations rest
        | _ :: _ => clean_line :: collect_recommendations rest
        end
      else collect_recommendations rest
  end.

Definition _extract_recommendations (ai_response : str) : list str :=
  let recommendations := collect_recommendations (split 10 ai_response) in
  let recommendations :=
    match recommendations with
    | [] => default_recommendations
    | _ :: _ => recommendations
    end in
  firstn 5 recommendations.

(** ** Language detection *)

Definition is_bengali (c : char) : bool := (0x0980 <=? c) && (c <=? 0x09FF).

Definition count_if (p : char -> bool) (s : str) : N :=
  N.of_nat (length (filter p s)).

(** services/ai_service.py, [AIService._detect_language].  The source
    compares the quotient of the two counts, a double, with the double
    [0.2]; for texts shorter than 2^52 characters that comparison agrees
    with the exact one, [5 * bengali_chars > total_chars], which is what is
    written here. *)
Definition _detect_language (text : str) : str :=
  let bengali_chars := count_if is_bengali text in
  let total_chars := N.of_nat (length (remove_char 10 (remove_char 32 text))) in
  if (0 <? total_chars) && (total_chars <? 5 * bengali_chars)
  then `"bn" else `"en".

(** utils/helpers.py, [detect_language] *)
Definition detect_language (text : str) : str :=
  match text with
  | [] => `"en"
  | _ => if existsb is_bengali text then `"bn" else `"en"
  end.

(** ** services/ai_service.py: prompts *)

Definition medical_system_prompt_en : str := `"You are a helpful medical health assistant for mySahara Health App.
Your role is to provide accurate, empathetic, and culturally sensitive health information to users in Bangladesh and globally.

Key guidelines:
- Provide evidence-based health information
- Be empathetic and understanding
- Always include a disclaimer that you're not replacing professional medical advice
- Encourage users to consult healthcare professionals for serious concerns
- Be culturally sensitive to Bangladeshi context
- Keep responses clear, concise, and actionable
- If unsure, admit it and suggest consulting a doctor
- Never diagnose or prescribe medication
- IMPORTANT: Always respond in the SAME LANGUAGE as the user's question. If they ask in English, respond in English. If they ask in Bangla, respond in Bangla.

Format responses in a friendly, conversational tone.".

Definition medical_system_prompt_bn : str :=
  [2438; 2474; 2472; 2495; 32; 109; 121; 83; 97; 104; 97; 114; 97; 32;
   2489; 2503; 2482; 2469; 32; 2437; 2509; 2479; 2494; 2474; 2503; 2480;
   32; 2447; 2453; 2460; 2472; 32; 2488; 2489; 2494; 2479; 2492; 2453; 32;
   2458; 2495; 2453; 2495; 2510; 2488; 2494; 32; 2488; 2509; 2476; 2494;
   2488; 2509; 2469; 2509; 2479; 32; 2488; 2489; 2494; 2479; 2492; 2453;
   2404; 10; 2438; 2474; 2472; 2494; 2480; 32; 2477; 2498; 2478; 2495;
   2453; 2494; 32; 2489; 2482; 32; 2476; 2494; 2434; 2482; 2494; 2470;
   2503; 2486; 32; 2447; 2476; 2434; 32; 2476; 2495; 2486; 2509; 2476;
   2476; 2509; 2479; 2494; 2474; 2496; 32; 2476; 2509; 2479; 2476; 2489;
   2494; 2480; 2453; 2494; 2480; 2496; 2470; 2503; 2480; 32; 2488; 2464;
   2495; 2453; 44; 32; 2488; 2489; 2494; 2472; 2497; 2477; 2498; 2468;
   2495; 2486; 2496; 2482; 32; 2447; 2476; 2434; 32; 2488; 2494; 2434;
   2488; 2509; 2453; 2499; 2468; 2495; 2453; 2477; 2494; 2476; 2503; 32;
   2488; 2434; 2476; 2503; 2470; 2472; 2486; 2496; 2482; 32; 2488; 2509;
   2476; 2494; 2488; 2509; 2469; 2509; 2479; 32; 2468; 2469; 2509; 2479;
   32; 2474; 2509; 2480; 2470; 2494; 2472; 32; 2453; 2480; 2494; 2404; 10;
   10; 2478; 2498; 2482; 32; 2472; 2495; 2480; 2509; 2470; 2503; 2486;
   2495; 2453; 2494; 58; 10; 45; 32; 2474; 2509; 2480; 2478; 2494; 2467;
   45; 2477; 2495; 2468; 2509; 2468; 2495; 2453; 32; 2488; 2509; 2476;
   2494; 2488; 2509; 2469; 2509; 2479; 32; 2468; 2469; 2509; 2479; 32;
   2474; 2509; 2480; 2470; 2494; 2472; 32; 2453; 2480; 2497; 2472; 10; 45;
   32; 2488; 2489; 2494; 2472; 2497; 2477; 2498; 2468; 2495; 2486; 2496;
   2482; 32; 2447; 2476; 2434; 32; 2476; 2507; 2471; 2455; 2478; 2509;
   2479; 32; 2489; 2472; 10; 45; 32; 2488; 2476; 2488; 2478; 2479; 2492;
   32; 2447; 2453; 2463; 2495; 32; 2470; 2494; 2476; 2495; 2468; 2509;
   2479; 2494; 2455; 32; 2437; 2472; 2509; 2468; 2480; 2509; 2477; 2497;
   2453; 2509; 2468; 32; 2453; 2480; 2497; 2472; 32; 2479; 2503; 32; 2438;
   2474; 2472; 2495; 32; 2474; 2503; 2486; 2494; 2470; 2494; 2480; 32;
   2458; 2495; 2453; 2495; 2510; 2488; 2494; 32; 2474; 2480; 2494; 2478;
   2480; 2509; 2486; 32; 2474; 2509; 2480; 2468; 2495; 2488; 2509; 2469;
   2494; 2474; 2472; 32; 2453; 2480; 2459; 2503; 2472; 32; 2472; 2494; 10;
   45; 32; 2455; 2497; 2480; 2497; 2468; 2480; 32; 2488; 2478; 2488; 2509;
   2479; 2494; 2480; 32; 2460; 2472; 2509; 2479; 32; 2476; 2509; 2479;
   2476; 2489; 2494; 2480; 2453; 2494; 2480; 2496; 2470; 2503; 2480; 32;
   2488; 2509; 2476; 2494; 2488; 2509; 2469; 2509; 2479; 2488; 2503; 2476;
   2494; 32; 2474; 2503; 2486; 2494; 2470; 2494; 2480; 2470; 2503; 2480;
   32; 2488; 2494; 2469; 2503; 32; 2474; 2480; 2494; 2478; 2480; 2509;
   2486; 32; 2453; 2480; 2468; 2503; 32; 2441; 2510; 2488; 2494; 2489;
   2495; 2468; 32; 2453; 2480; 2497; 2472; 10; 45; 32; 2476; 2494; 2434;
   2482; 2494; 2470; 2503; 2486; 2496; 32; 2474; 2509; 2480; 2488; 2457;
   2509; 2455; 2503; 32; 2488; 2494; 2434; 2488; 2509; 2453; 2499; 2468;
   2495; 2453; 2477; 2494; 2476; 2503; 32; 2488; 2434; 2476; 2503; 2470;
   2472; 2486; 2496; 2482; 32; 2489; 2472; 10; 45; 32; 2474; 2509; 2480;
   2468; 2495; 2453; 2509; 2480; 2495; 2479; 2492; 2494; 32; 2488; 2509;
   2474; 2487; 2509; 2463; 44; 32; 2488; 2434; 2453; 2509; 2487; 2495;
   2474; 2509; 2468; 32; 2447; 2476; 2434; 32; 2453; 2494; 2480; 2509;
   2479; 2453; 2480; 32; 2480; 2494; 2454; 2497; 2472; 10; 45; 32; 2437;
   2472; 2495; 2486; 2509; 2458; 2495; 2468; 32; 2489; 2482; 2503; 32;
   2488; 2509; 2476; 2496; 2453; 2494; 2480; 32; 2453; 2480; 2497; 2472;
   32; 2447; 2476; 2434; 32; 2465; 2494; 2453; 2509; 2468; 2494; 2480;
   2503; 2480; 32; 2474; 2480; 2494; 2478; 2480; 2509; 2486; 32; 2472;
   2503; 2451; 2479; 2492; 2494; 2480; 32; 2474; 2480; 2494; 2478; 2480;
   2509; 2486; 32; 2470; 2495; 2472; 10; 45; 32; 2453; 2454; 2472; 2439;
   32; 2480; 2507; 2455; 32; 2472; 2495; 2480; 2509; 2467; 2479; 2492; 32;
   2476; 2494; 32; 2451; 2487; 2497; 2471; 32; 2472; 2495; 2480; 2509;
   2471; 2494; 2480; 2467; 32; 2453; 2480; 2476; 2503; 2472; 32; 2472;
   2494; 10; 45; 32; 2455; 2497; 2480; 2497; 2468; 2509; 2476; 2474; 2498;
   2480; 2509; 2467; 58; 32; 2488; 2476; 2488; 2478; 2479; 2492; 32; 2476;
   2509; 2479; 2476; 2489; 2494; 2480; 2453; 2494; 2480; 2496; 2480; 32;
   2474; 2509; 2480; 2486; 2509; 2472; 2503; 2480; 32; 2478; 2468; 2507;
   32; 2447; 2453; 2439; 32; 2477; 2494; 2487; 2494; 2479; 2492; 32; 2441;
   2468; 2509; 2468; 2480; 32; 2470; 2495; 2472; 2404; 32; 2468; 2494;
   2480; 2494; 32; 2439; 2434; 2480; 2503; 2460; 2495; 2468; 2503; 32;
   2460; 2495; 2460; 2509; 2462; 2494; 2488; 2494; 32; 2453; 2480; 2482;
   2503; 32; 2439; 2434; 2480; 2503; 2460; 2495; 2468; 2503; 32; 2441;
   2468; 2509; 2468; 2480; 32; 2470; 2495; 2472; 2404; 32; 2468; 2494;
   2480; 2494; 32; 2476; 2494; 2434; 2482; 2494; 2479; 2492; 32; 2460;
   2495; 2460; 2509; 2462; 2494; 2488; 2494; 32; 2453; 2480; 2482; 2503;
   32; 2476; 2494; 2434; 2482; 2494; 2479; 2492; 32; 2441; 2468; 2509;
   2468; 2480; 32; 2470; 2495; 2472; 2404; 10; 10; 2476; 2472; 2509; 2471;
   2497; 2468; 2509; 2476; 2474; 2498; 2480; 2509; 2467; 44; 32; 2453;
   2469; 2507; 2474; 2453; 2469; 2472; 2478; 2498; 2482; 2453; 32; 2488;
   2497; 2480; 2503; 32; 2474; 2509; 2480; 2468; 2495; 2453; 2509; 2480;
   2495; 2479; 2492; 2494; 32; 2475; 2480; 2478; 2509; 2479; 2494; 2463;
   32; 2453; 2480; 2497; 2472; 2404].

Definition directive_en : str :=
  [10; 10] ++ `"IMPORTANT: The user's message is in English. You MUST respond in English only.".

Definition directive_bn : str :=
  [10; 10; 2455; 2497; 2480; 2497; 2468; 2509; 2476; 2474; 2498; 2480;
   2509; 2467; 58; 32; 2476; 2509; 2479; 2476; 2489; 2494; 2480; 2453;
   2494; 2480; 2496; 2480; 32; 2476; 2494; 2480; 2509; 2468; 2494; 32;
   2476; 2494; 2434; 2482; 2494; 2479; 2492; 2404; 32; 2438; 2474; 2472;
   2494; 2453; 2503; 32; 2437; 2476; 2486; 2509; 2479; 2439; 32; 2486;
   2497; 2471; 2497; 2478; 2494; 2468; 2509; 2480; 32; 2476; 2494; 2434;
   2482; 2494; 2479; 2492; 32; 2441; 2468; 2509; 2468; 2480; 32; 2470;
   2495; 2468; 2503; 32; 2489; 2476; 2503; 2404].

(** [AIService._get_system_prompt] *)
Definition _get_system_prompt (language : str) (use_medical_mode : bool)
    : str :=
  if negb use_medical_mode then `"You are a helpful AI assistant."
  else if str_eqb language `"bn" then medical_system_prompt_bn
  else medical_system_prompt_en.

(** ** services/ai_service.py: the chat orchestrator *)

Record turn := { role : str; content : str }.

(** What a provider's client library does with a request: it raises
    ([inl], with the text of the exception) or replies. *)
Record groq_reply := {
  reply_content : str;
  prompt_tokens : Z;
  completion_tokens : Z;
  total_tokens : Z
}.

Definition groq_handle := str -> list turn -> sum str groq_reply.
Definition gemini_handle := str -> sum str str.

Record AIService := {
  groq_client : option groq_handle;
  gemini_model : option gemini_handle
}.

(** The outbound calls of one run, oldest first. *)
Inductive event :=
| GroqCall (model : str) (messages : list turn)
| GeminiCall (full_prompt : str).

(** The dict the chat methods return; the wall-clock [processing_time]
    entry is left out. *)
Record chat_dict := {
  success : bool;
  message : option str;
  model_used : option str;
  usage : option (Z * Z * Z);
  error : option str;
  language : option str
}.

Definition set_language (d : chat_dict) (l : str) : chat_dict :=
  {| success := success d; message := message d; model_used := model_used d;
     usage := usage d; error := error d; language := Some l |}.

Definition failed (e : str) : chat_dict :=
  {| success := false; message := None; model_used := None; usage := None;
     error := Some e; language := None |}.

(** An effectful computation: it extends the log of outbound calls and
    returns or raises. *)
Definition io (A : Type) := list event -> result A * list event.

Definition io_ret {A} (a : A) : io A := fun log => (inr a, log).
Definition io_raise {A} (e : exn) : io A := fun log => (inl e, log).
Definition io_bind {A B} (m : io A) (k : A -> io B) : io B :=
  fun log =>
    match m log with
    | (inl e, log') => (inl e, log')
    | (inr a, log') => k a log'
    end.
Definition emit (e : event) : io unit := fun log => (inr tt, log ++ [e]).

Notation "x <-- m ;; k" := (io_bind m (fun x => k))
  (at level 61, m at next level, right associativity).

Definition default_groq_model : str := `"llama-3.3-8b-instant".

(** The message list the primary provider receives: the system prompt if
    there is one, the history, the user's message. *)
Definition groq_messages (message : str) (conversation_history : list turn)
    (system_prompt : str) : list turn :=
  (match system_prompt with
   | [] => []
   | _ :: _ => [{| role := `"system"; content := system_prompt |}]
   end)
  ++ conversation_history
  ++ [{| role := `"user"; content := message |}].

(** [AIService.chat_with_groq]; an absent history is the empty one. *)
Definition chat_with_groq (self : AIService) (message : str)
    (conversation_history : list turn) (system_prompt : str) (model : str)
    : io chat_dict :=
  match groq_client self with
  | None => io_raise (Exception `"Groq client not initialized")
  | Some client =>
      let messages :=
        groq_messages message conversation_history system_prompt in
      _ <-- emit (GroqCall model messages) ;;
      match client model messages with
      | inr response =>
          io_ret {| success := true;
                    message := Some (reply_content response);
                    model_used := Some model;
                    usage := Some (prompt_tokens response,
                                   completion_tokens response,
                                   total_tokens response);
                    error := None; language := None |}
      | inl e => io_ret (failed e)
      end
  end.

Definition transcript_line (msg : turn) : str :=
  (if str_eqb (role msg) `"user" then `"User" else `"Assistant")
    ++ `": " ++ content msg ++ [10].

(** The single text blob the secondary provider receives. *)
Definition gemini_full_prompt (message : str)
    (conversation_history : list turn) (system_prompt : str) : str :=
  (match system_prompt with
   | [] => []
   | _ :: _ => system_prompt ++ [10; 10]
   end)
  ++ concat (map transcript_line conversation_history)
  ++ `"User: " ++ message ++ [10] ++ `"Assistant:".

(** [AIService.chat_with_gemini] *)
Definition chat_with_gemini (self : AIService) (message : str)
    (conversation_history : list turn) (system_prompt : str)
    : io chat_dict :=
  match gemini_model self with
  | None => io_raise (Exception `"Gemini client not initialized")
  | Some model =>
      let full_prompt :=
        gemini_full_prompt message conversation_history system_prompt in
      _ <-- emit (GeminiCall full_prompt) ;;
      match model full_prompt with
      | inr text =>
          io_ret {| success := true; message := Some text;
                    model_used := Some `"gemini-1.5-flash";
                    usage := None; error := None; language := None |}
      | inl e => io_ret (failed e)
      end
  end.

(** The locale [chat] works with: detected from the message when the
    caller passes none or ["auto"]. *)
Definition resolve_language (language message : str) : str :=
  if str_eqb language [] || str_eqb language `"auto"
  then _detect_language message else language.

Definition context_lines (context : dict) : str :=
  `"

Additional Context:
" ++ concat (map (fun kv => `"- " ++ fst kv ++ `": " ++ py_str (snd kv) ++ [10])
               context).

(** The system prompt [chat] sends, for an already resolved locale. *)
Definition chat_system_prompt (language : str) (use_medical_mode : bool)
    (context : option dict) : str :=
  _get_system_prompt language use_medical_mode
  ++ (if str_eqb language `"en" then directive_en else directive_bn)
  ++ match context with
     | Some ((_ :: _) as c) => context_lines c
     | _ => []
     end.

(** [AIService.chat] *)
Definition chat (self : AIService) (message language : str)
    (conversation_history : list turn) (use_medical_mode : bool)
    (context : option dict) : io chat_dict :=
  let language := resolve_language language message in
  let system_prompt := chat_system_prompt language use_medical_mode context in
  let try_gemini : io chat_dict :=
    let all_failed :=
      io_ret {| success := false; message := None; model_used := None;
                usage := None;
                error := Some `"All AI services are unavailable";
                language := Some language |} in
    match gemini_model self with
    | Some _ =>
        result <-- chat_with_gemini self message conversation_history
                     system_prompt ;;
        if success result then io_ret (set_language result language)
        else all_failed
    | None => all_failed
    end in
  match groq_client self with
  | Some _ =>
      result <-- chat_with_groq self message conversation_history
                   system_prompt default_groq_model ;;
      if success result then io_ret (set_language result language)
      else try_gemini
  | None => try_gemini
  end.

(** ** Regular expressions, as Python's [re] runs them

    The fragment the patterns of services/ocr_service.py use: classes of
    single characters, greedy bounded and unbounded repetition of a class,
    sequence, ordered alternative, greedy option, capture groups and the
    word boundary.  The matcher backtracks in the order of [re]: the first
    alternative first, the longest repetition first. *)

Inductive regex :=
| Eps
| Chr (p : char -> bool)
| Rep (p : char -> bool) (lo : nat) (hi : option nat)
| Cat (a b : regex)
| Alt (a b : regex)
| Opt (a : regex)
| Group (n : nat) (a : regex)
| WordBoundary.

(** Where a match attempt stands: the character before the cursor, the
    text after it, the cursor and the groups captured so far. *)
Record mstate := {
  prev : option char;
  rest : str;
  pos : nat;
  groups : list (nat * str)
}.

Definition is_word (c : option char) : bool :=
  match c with
  | Some c => isalnum c || (c =? 95)
  | None => false
  end.

Definition at_boundary (st : mstate) : bool :=
  xorb (is_word (prev st)) (is_word (hd_error (rest st))).

Definition set_group (n : nat) (text : str) (st : mstate) : mstate :=
  {| prev := prev st; rest := rest st; pos := pos st;
     groups := (n, text) :: groups st |}.

Definition room (hi : option nat) : bool :=
  match hi with
  | Some O => false
  | _ => true
  end.

(** Greedy [p{lo,hi}]: take one more character when allowed, give it back
    when the continuation fails. *)
Fixpoint rep {A} (p : char -> bool) (lo : nat) (hi : option nat)
    (pv : option char) (rs : str) (ps : nat) (gs : list (nat * str))
    (k : mstate -> option A) : option A :=
  let stop :=
    match lo with
    | O => k {| prev := pv; rest := rs; pos := ps; groups := gs |}
    | S _ => None
    end in
  match rs with
  | c :: rs' =>
      if p c && room hi then
        match rep p (Nat.pred lo) (option_map Nat.pred hi) (Some c) rs'
                (S ps) gs k with
        | Some r => Some r
        | None => stop
        end
      else stop
  | [] => stop
  end.

Fixpoint run {A} (r : regex) (st : mstate) (k : mstate -> option A)
    : option A :=
  match r with
  | Eps => k st
  | Chr p =>
      match rest st with
      | c :: rs' =>
          if p c
          then k {| prev := Some c; rest := rs'; pos := S (pos st);
                    groups := groups st |}
          else None
      | [] => None
      end
  | Rep p lo hi => rep p lo hi (prev st) (rest st) (pos st) (groups st) k
  | Cat a b => run a st (fun st' => run b st' k)
  | Alt a b =>
      match run a st k with
      | Some r => Some r
      | None => run b st k
      end
  | Opt a =>
      match run a st k with
      | Some r => Some r
      | None => k st
      end
  | Group n a =>
      run a st (fun st' =>
        k (set_group n (firstn (pos st' - pos st) (rest st)) st'))
  | WordBoundary => if at_boundary st then k st else None
  end.

(** A match object: [group(0)] and the numbered groups that took part. *)
Record rmatch := { whole : str; captured : list (nat * str) }.

Fixpoint lookup_group (n : nat) (gs : list (nat * str)) : option str :=
  match gs with
  | [] => None
  | (m, t) :: gs' => if Nat.eqb m n then Some t else lookup_group n gs'
  end.

(** [m.group(n)]: [None] for a group that did not take part. *)
Definition group (m : rmatch) (n : nat) : option str :=
  match n with
  | O => Some (whole m)
  | _ => lookup_group n (captured m)
  end.

Definition match_at (r : regex) (pv : option char) (rs : str) (ps : nat)
    : option rmatch :=
  run r {| prev := pv; rest := rs; pos := ps; groups := [] |}
      (fun st => Some {| whole := firstn (pos st - ps) rs;
                         captured := groups st |}).

(** The leftmost match, trying every start up to the end of the text. *)
Fixpoint search_from (r : regex) (pv : option char) (rs : str) (ps : nat)
    : option rmatch :=
  match match_at r pv rs ps with
  | Some m => Some m
  | None =>
      match rs with
      | c :: rs' => search_from r (Some c) rs' (S ps)
      | [] => None
      end
  end.

(** [re.search(r, text, re.IGNORECASE)], the flag being part of [r]. *)
Definition search (r : regex) (text : str) : option rmatch :=
  search_from r None text O.

(** *** Character classes under [re.IGNORECASE]

    A letter of the pattern matches both its cases and, for [i], [s] and
    [k], the non-ASCII letters that fold to them: U+0130, U+0131, U+017F
    and U+212A. *)

Definition lit_ci (x : char) (c : char) : bool :=
  (is_ascii c && (ascii_lower c =? ascii_lower x))
  || ((ascii_lower x =? 105) && ((c =? 0x130) || (c =? 0x131)))
  || ((ascii_lower x =? 115) && (c =? 0x17F))
  || ((ascii_lower x =? 107) && (c =? 0x212A)).

(** [[A-Za-z]] *)
Definition letter_ci (c : char) : bool :=
  ((65 <=? c) && (c <=? 90)) || ((97 <=? c) && (c <=? 122))
  || (c =? 0x130) || (c =? 0x131) || (c =? 0x17F) || (c =? 0x212A).

(** [\d] *)
Definition digit (c : char) : bool :=
  match todecimal c with
  | Some _ => true
  | None => false
  end.

Definition one_of (chars : str) (c : char) : bool := mem c chars.

Fixpoint lit_chars (s : str) : regex :=
  match s with
  | [] => Eps
  | [c] => Chr (lit_ci c)
  | c :: s' => Cat (Chr (lit_ci c)) (lit_chars s')
  end.

(** A literal word of the pattern. *)
Definition lit (s : string) : regex := lit_chars `s.

Fixpoint alt_of (rs : list regex) : regex :=
  match rs with
  | [] => Eps
  | [r] => r
  | r :: rs' => Alt r (alt_of rs')
  end.

Fixpoint seq_of (rs : list regex) : regex :=
  match rs with
  | [] => Eps
  | [r] => r
  | r :: rs' => Cat r (seq_of rs')
  end.

Definition plus (p : char -> bool) : regex := Rep p 1 None.
Definition star (p : char -> bool) : regex := Rep p 0 None.
Definition upto (p : char -> bool) (lo hi : nat) : regex := Rep p lo (Some hi).
Definition maybe (c : string) : regex :=
  Rep (lit_ci (hd 0 `c)) 0 (Some 1%nat).

(** ** services/ocr_service.py: the patterns *)

Definition doctor_pattern : regex :=
  seq_of [WordBoundary;
          Group 1 (alt_of [lit "Dr."; lit "Doctor"; lit "Dr"]);
          plus isspace;
          Group 2 (plus (fun c => letter_ci c || isspace c || (c =? 46)))].

Definition date_sep : char -> bool := one_of `"-/".

Definition month_names : list string :=
  ["Jan"; "Feb"; "Mar"; "Apr"; "May"; "Jun";
   "Jul"; "Aug"; "Sep"; "Oct"; "Nov"; "Dec"]%string.

Definition date_patterns : list regex :=
  [seq_of [upto digit 1 2; Chr date_sep; upto digit 1 2; Chr date_sep;
           upto digit 2 4];
   seq_of [upto digit 4 4; Chr date_sep; upto digit 1 2; Chr date_sep;
           upto digit 1 2];
   seq_of [upto digit 1 2; plus isspace;
           Group 1 (alt_of (map lit month_names));
           star letter_ci; plus isspace; upto digit 2 4]].

Definition label_sep : char -> bool := one_of `":-".

(** [<label>\s*[:\-]\s*(<body>+)] *)
Definition labelled (label : string) (body : char -> bool) : regex :=
  seq_of [lit label; star isspace; Chr label_sep; star isspace;
          Group 1 (plus body)].

Definition name_char (c : char) : bool := letter_ci c || isspace c.

Definition patient_patterns : list regex :=
  [labelled "Patient" name_char;
   labelled "Name" name_char;
   labelled "Patient Name" name_char].

Definition medication_keywords : list str :=
  [`"tab"; `"cap"; `"syrup"; `"injection"; `"mg"; `"ml"].

Definition dosage_pattern : regex :=
  Group 1 (seq_of [plus digit; star isspace;
                   alt_of [lit "mg"; lit "ml"; lit "g"]]).

Definition per_day : regex := alt_of [lit "daily"; lit "per day"; lit "a day"].

Definition freq_patterns : list regex :=
  [Group 1 (seq_of [plus digit; star isspace;
                    alt_of [Cat (lit "time") (maybe "s"); lit "x"];
                    star isspace; per_day]);
   seq_of [Group 1 (alt_of [lit "once"; lit "twice"; lit "thrice"]);
           star isspace; per_day];
   Group 1 (seq_of [plus digit; Chr (chr_eqb 45); plus digit;
                    Chr (chr_eqb 45); plus digit])].

Definition duration_pattern : regex :=
  seq_of [Opt (Cat (lit "for") (plus isspace));
          Group 1 (seq_of [plus digit; star isspace;
                           alt_of [Cat (lit "day") (maybe "s");
                                   Cat (lit "week") (maybe "s");
                                   Cat (lit "month") (maybe "s")]])].

Definition not_newline (c : char) : bool := negb (c =? 10).

Definition diagnosis_patterns : list regex :=
  [labelled "Diagnosis" not_newline;
   labelled "Dx" not_newline;
   labelled "Impression" not_newline].

(** ** services/ocr_service.py: [_parse_prescription] *)

(** The entry of the ["medications"] list; [med_name] is its ["name"]. *)
Record medication := {
  med_name : str;
  dosage : option str;
  frequency : option str;
  duration : option str
}.

Record prescription := {
  doctor_name : option str;
  hospital : option str;
  date : option str;
  patient_name : option str;
  medications : list medication;
  diagnosis : option str;
  instructions : option str
}.

Definition empty_prescription : prescription :=
  {| doctor_name := None; hospital := None; date := None;
     patient_name := None; medications := []; diagnosis := None;
     instructions := None |}.

Definition set_doctor_name (v : str) (d : prescription) : prescription :=
  {| doctor_name := Some v; hospital := hospital d; date := date d;
     patient_name := patient_name d; medications := medications d;
     diagnosis := diagnosis d; instructions := instructions d |}.

Definition set_date (v : str) (d : prescription) : prescription :=
  {| doctor_name := doctor_name d; hospital := hospital d; date := Some v;
     patient_name := patient_name d; medications := medications d;
     diagnosis := diagnosis d; instructions := instructions d |}.

Definition set_patient_name (v : str) (d : prescription) : prescription :=
  {| doctor_name := doctor_name d; hospital := hospital d; date := date d;
     patient_name := Some v; medications := medications d;
     diagnosis := diagnosis d; instructions := instructions d |}.

Definition append_medication (m : medication) (d : prescription)
    : prescription :=
  {| doctor_name := doctor_name d; hospital := hospital d; date := date d;
     patient_name := patient_name d; medications := medications d ++ [m];
     diagnosis := diagnosis d; instructions := instructions d |}.

Definition set_diagnosis (v : str) (d : prescription) : prescription :=
  {| doctor_name := doctor_name d; hospital := hospital d; date := date d;
     patient_name := patient_name d; medications := medications d;
     diagnosis := Some v; instructions := instructions d |}.

(** The body of the [try] block: it updates the [data] dict in place and
    may raise; what it has written by then stays written. *)
Definition px (A : Type) := prescription -> result A * prescription.

Definition px_ret {A} (a : A) : px A := fun d => (inr a, d).
Definition px_bind {A B} (m : px A) (k : A -> px B) : px B :=
  fun d =>
    match m d with
    | (inl e, d') => (inl e, d')
    | (inr a, d') => k a d'
    end.
Definition px_lift {A} (r : result A) : px A := fun d => (r, d).
Definition px_update (f : prescription -> prescription) : px unit :=
  fun d => (inr tt, f d).

Notation "x <~ m ;; k" := (px_bind m (fun x => k))
  (at level 61, m at next level, right associativity).

(** [o.strip()] where [o] may be [None]. *)
Definition strip_method (o : option str) : result str :=
  match o with
  | Some s => inr (strip s)
  | None =>
      inl (AttributeError `"'NoneType' object has no attribute 'strip'")
  end.

Fixpoint extract_doctor (lines : list str) : px unit :=
  match lines with
  | [] => px_ret tt
  | line :: lines' =>
      match search doctor_pattern line with
      | Some m => px_update (set_doctor_name (strip (whole m)))
      | None => extract_doctor lines'
      end
  end.

Fixpoint extract_date (patterns : list regex) (text : str) : px unit :=
  match patterns with
  | [] => px_ret tt
  | pattern :: patterns' =>
      match search pattern text with
      | Some m => px_update (set_date (whole m))
      | None => extract_date patterns' text
      end
  end.

(** The loop shared by the patient and the diagnosis rules: the first
    pattern that matches gives [group(1).strip()]. *)
Fixpoint extract_labelled (patterns : list regex) (text : str)
    (store : str -> prescription -> prescription) : px unit :=
  match patterns with
  | [] => px_ret tt
  | pattern :: patterns' =>
      match search pattern text with
      | Some m =>
          v <~ px_lift (strip_method (group m 1)) ;;
          px_update (store v)
      | None => extract_labelled patterns' text store
      end
  end.

Fixpoint first_group1 (patterns : list regex) (line : str) : option str :=
  match patterns with
  | [] => None
  | pattern :: patterns' =>
      match search pattern line with
      | Some m => group m 1
      | None => first_group1 patterns' line
      end
  end.

Definition med_info (line : str) : medication :=
  {| med_name := strip line;
     dosage := match search dosage_pattern line with
               | Some m => group m 1
               | None => None
               end;
     frequency := first_group1 freq_patterns line;
     duration := match search duration_pattern line with
                 | Some m => group m 1
                 | None => None
                 end |}.

Definition is_medication_line (line : str) : bool :=
  let line_lower := lower line in
  existsb (fun keyword => contains keyword line_lower) medication_keywords.

Fixpoint extract_medications (lines : list str) : px unit :=
  match lines with
  | [] => px_ret tt
  | line :: lines' =>
      _ <~ (if is_medication_line line
            then px_update (append_medication (med_info line))
            else px_ret tt) ;;
      extract_medications lines'
  end.

Definition parse_prescription_body (text : str) : px unit :=
  let lines := split 10 text in
  _ <~ extract_doctor lines ;;
  _ <~ extract_date date_patterns text ;;
  _ <~ extract_labelled patient_patterns text set_patient_name ;;
  _ <~ extract_medications lines ;;
  extract_labelled diagnosis_patterns text set_diagnosis.

(** [OCRService._parse_prescription]: whatever the body raises is logged
    and the dict is returned as it stands. *)
Definition _parse_prescription (text : str) : prescription :=
  snd (parse_prescription_body text empty_prescription).

(** ** services/ocr_service.py: [_parse_lab_report] *)

(** A row of ["tests"]; the keys are ["name"] and ["result"]. *)
Record lab_test := { test_name : str; test_result : str }.

(** The keys are ["patient_name"], ["date"] and ["tests"]. *)
Record lab_report := {
  lab_patient_name : option str;
  lab_date : option str;
  tests : list lab_test
}.

Fixpoint lab_rows (lines : list str) : list lab_test :=
  match lines with
  | [] => []
  | line :: lines' =>
      if contains `":" line then
        match split1 58 line with
        | [a; b] =>
            {| test_name := strip a; test_result := strip b |}
              :: lab_rows lines'
        | _ => lab_rows lines'
        end
      else lab_rows lines'
  end.

Definition _parse_lab_report (text : str) : lab_report :=
  {| lab_patient_name := None; lab_date := None;
     tests := lab_rows (split 10 text) |}.

(** [OCRService._parse_medical_certificate]: every key is [None]. *)
Record certificate := {
  cert_doctor_name : option str;
  cert_patient_name : option str;
  cert_date : option str;
  cert_diagnosis : option str;
  cert_recommendations : option str
}.

Definition _parse_medical_certificate (text : str) : certificate :=
  {| cert_doctor_name := None; cert_patient_name := None;
     cert_date := None; cert_diagnosis := None;
     cert_recommendations := None |}.

(** ** services/ocr_service.py: [extract_medical_document] *)

(** What the text-extraction step hands over. *)
Record ocr_result := {
  ocr_success : bool;
  ocr_text : str;
  ocr_confidence : pyfloat;
  ocr_error : option str
}.

Inductive extracted :=
| Prescription (p : prescription)
| LabReport (l : lab_report)
| MedicalCertificate (c : certificate)
| RawText (raw_text : str).

(** The dispatch on the declared document type. *)
Definition parse_document (raw_text document_type : str) : extracted :=
  if str_eqb document_type `"prescription"
  then Prescription (_parse_prescription raw_text)
  else if str_eqb document_type `"lab_report"
  then LabReport (_parse_lab_report raw_text)
  else if str_eqb document_type `"medical_certificate"
  then MedicalCertificate (_parse_medical_certificate raw_text)
  else RawText raw_text.

Inductive document_response :=
| DocumentFailed (error : str)
| DocumentParsed (document_type : str) (extracted_data : extracted)
    (raw_text : str) (confidence : pyfloat).

(** [OCRService.extract_medical_document], from the OCR result on. *)
Definition extract_medical_document (ocr : ocr_result)
    (document_type : str) : document_response :=
  if negb (ocr_success ocr) then
    DocumentFailed match ocr_error ocr with
                   | Some e => e
                   | None => `"Text extraction failed"
                   end
  else
    let raw_text := ocr_text ocr in
    DocumentParsed document_type (parse_document raw_text document_type)
      raw_text (ocr_confidence ocr).

(** ** api/health.py: the other helpers of symptom analysis *)

Definition emergency_keywords : list str :=
  [`"chest pain"; `"severe"; `"difficulty breathing"; `"bleeding";
   `"unconscious"; `"seizure"; `"stroke"].

(** [_check_urgent_care] *)
Definition _check_urgent_care (symptoms : list str) (severity : option str)
    : bool :=
  let symptoms_text := lower (join `" " symptoms) in
  existsb (fun keyword => contains keyword symptoms_text) emergency_keywords
  || opt_str_eqb severity `"severe".

(** [_generate_recommendations] *)
Definition _generate_recommendations (symptoms : list str)
    (severity : option str) (risk_level : str) : list str :=
  (if str_eqb risk_level `"high" then
     [`"Seek immediate medical attention";
      `"Do not delay consulting a healthcare professional"]
   else if str_eqb risk_level `"medium" then
     [`"Consult a doctor soon"; `"Monitor symptoms closely"]
   else
     [`"Rest and stay hydrated"; `"Monitor symptoms for changes"])
  ++ [`"Maintain a healthy diet"; `"Get adequate sleep";
      `"Track your symptoms"].

Definition ascii_upper (c : char) : char :=
  if (97 <=? c) && (c <=? 122) then c - 32 else c.

Definition ascii_cased (c : char) : bool :=
  ((65 <=? c) && (c <=? 90)) || ((97 <=? c) && (c <=? 122)).

Fixpoint title_from (prev_cased : bool) (s : str) : str :=
  match s with
  | [] => []
  | c :: s' =>
      (if ascii_cased c
       then if prev_cased then ascii_lower c else ascii_upper c
       else c) :: title_from (ascii_cased c) s'
  end.

(** [s.title()] for the ASCII words of the vocabularies below: a letter
    that follows a letter is lower-cased, any other letter upper-cased. *)
Definition py_title (s : str) : str := title_from false s.

(** The double [0.5], the placeholder probability. *)
Variable float_half : pyfloat.

(** The keywords that occur in the text, in the order of the list. *)
Fixpoint keyword_hits (keywords : list str) (text_lower : str) : list str :=
  match keywords with
  | [] => []
  | keyword :: keywords' =>
      if contains keyword text_lower
      then keyword :: keyword_hits keywords' text_lower
      else keyword_hits keywords' text_lower
  end.

Definition condition_keywords : list str :=
  [`"common cold"; `"flu"; `"infection"; `"diabetes"; `"hypertension";
   `"migraine"; `"allergy"; `"gastritis"; `"anxiety"; `"depression"].

Record possible_condition := { condition : str; probability : pyfloat }.

(** [_extract_conditions] *)
Definition _extract_conditions (text : str) : list possible_condition :=
  firstn 5
    (map (fun c => {| condition := py_title c; probability := float_half |})
       (keyword_hits condition_keywords (lower text))).

Definition prediction_conditions : list str :=
  [`"diabetes"; `"heart disease"; `"hypertension"; `"stroke"; `"obesity";
   `"cancer"; `"arthritis"].

Record prediction := {
  predicted_condition : str;
  risk : str;
  predicted_probability : pyfloat;
  timeframe : str
}.

(** [_extract_predictions]; the keys are ["condition"], ["risk"],
    ["probability"] and ["timeframe"]. *)
Definition _extract_predictions (text : str) : list prediction :=
  firstn 5
    (map (fun c => {| predicted_condition := py_title c; risk := `"medium";
                      predicted_probability := float_half;
                      timeframe := `"5-10 years" |})
       (keyword_hits prediction_conditions (lower text))).

Record health_tip := { title : str; description : str; icon : str }.

Definition tip_enumerator_chars : str := `"0123456789.-" ++ [bullet] ++ `") ".

Definition tip_of (tip_text : str) : health_tip :=
  if contains `":" tip_text then
    let parts := split1 58 tip_text in
    {| title := strip (nth 0 parts []); description := strip (nth 1 parts []);
       icon := `"health_and_safety" |}
  else
    {| title := firstn 50 tip_text; description := tip_text;
       icon := `"health_and_safety" |}.

Fixpoint collect_tips (lines : list str) : list health_tip :=
  match lines with
  | [] => []
  | line :: rest =>
      let line := strip line in
      if is_list_item line then
        let tip_text := strip (lstrip tip_enumerator_chars line) in
        match tip_text with
        | [] => collect_tips rest
        | _ :: _ => tip_of tip_text :: collect_tips rest
        end
      else collect_tips rest
  end.

(** [_parse_health_tips] *)
Definition _parse_health_tips (text : str) : list health_tip :=
  let tips := collect_tips (split 10 text) in
  let tips :=
    match tips with
    | [] => [{| title := `"Health Tip"; description := text;
                icon := `"health_and_safety" |}]
    | _ :: _ => tips
    end in
  firstn 10 tips.

(** ** api/family_insights.py: summary and family risks *)




(** The request model [FamilyMember]; [member_id] is its ["id"]. *)
Record FamilyMember := {
  member_id : option str;
  name : str;
  relationship : str;
  age : option Z;
  gender : option str;
  chronic_diseases : option (list str)
}.

Definition diseases_of (member : FamilyMember) : list str :=
  match chronic_diseases member with
  | Some diseases => diseases
  | None => []
  end.

(** The lower-cased diseases of all members.  The source collects them in
    a set and only asks whether some element contains a condition, so their
    order and repetitions do not matter. *)
Definition all_conditions (family_members : list FamilyMember) : list str :=
  flat_map (fun member => map lower (diseases_of member)) family_members.

Definition high_risk_conditions : list str :=
  [`"diabetes"; `"heart disease"; `"cancer"; `"stroke"; `"hypertension"].

Definition medium_risk_conditions : list str :=
  [`"asthma"; `"arthritis"; `"allergies"; `"obesity"].

(** One of the two loops: each condition found in some disease is
    appended, title-cased, and sets the level. *)
Definition scan_conditions (conditions : list str) (level : str)
    (diseases : list str) (state : list str * str) : list str * str :=
  fold_left
    (fun state condition =>
       if existsb (fun c => contains condition c) diseases
       then (fst state ++ [py_title condition], level)
       else state)
    conditions state.

Record risk_assessment := {
  risk_level : str;
  risk_factors : list str;
  recommendation : str
}.

(** [_assess_family_risks] *)
Definition _assess_family_risks (family_members : list FamilyMember)
    : risk_assessment :=
  let diseases := all_conditions family_members in
  let state := scan_conditions high_risk_conditions `"high" diseases
                 ([], `"low") in
  let state :=
    if str_eqb (snd state) `"low"
    then scan_conditions medium_risk_conditions `"medium" diseases state
    else state in
  {| risk_level := snd state;
     risk_factors := fst state;
     recommendation :=
       if negb (str_eqb (snd state) `"low")
       then `"Regular monitoring and preventive care recommended"
       else `"Maintain healthy lifestyle" |}.

(** ** api/ai_chat.py: the chat route *)

(** The Bengali texts of [_generate_suggestions], as code points. *)
Definition suggest_more_bn : str :=
  [2438; 2480; 2451; 32; 2476; 2495; 2488; 2509; 2468; 2494; 2480; 2495;
   2468; 32; 2460; 2494; 2472; 2468; 2503; 32; 2458; 2494; 2472; 63].

Definition suggest_other_bn : str :=
  [2437; 2472; 2509; 2479; 32; 2453; 2495; 2459; 2497; 32; 2460; 2494;
   2472; 2468; 2503; 32; 2458; 2494; 2472; 63].

Definition diabetes_bn : str :=
  [2465; 2494; 2479; 2492; 2494; 2476; 2503; 2463; 2495; 2488].

Definition suggest_prevention_bn : str :=
  [2465; 2494; 2479; 2492; 2494; 2476; 2503; 2463; 2495; 2488; 32; 2474;
   2509; 2480; 2468; 2495; 2480; 2507; 2471; 32; 2488; 2478; 2509; 2474;
   2480; 2509; 2453; 2503; 32; 2460; 2494; 2472; 2497; 2472].

Definition suggest_control_bn : str :=
  [2465; 2494; 2479; 2492; 2494; 2476; 2503; 2463; 2495; 2488; 32; 2472;
   2495; 2479; 2492; 2472; 2509; 2468; 2509; 2480; 2467; 2503; 2480; 32;
   2441; 2474; 2494; 2479; 2492].

Definition suggest_complications_bn : str :=
  [2465; 2494; 2479; 2492; 2494; 2476; 2503; 2463; 2495; 2488; 2503; 2480;
   32; 2460; 2463; 2495; 2482; 2468; 2494].

(** [_generate_suggestions] *)
Definition _generate_suggestions (message language : str) : list str :=
  let default_suggestions :=
    if str_eqb language `"bn"
    then [suggest_more_bn; suggest_other_bn]
    else [`"Would you like more details?";
          `"Do you have any other questions?"] in
  let message_lower := lower message in
  if str_eqb language `"en" then
    if contains `"diabetes" message_lower then
      [`"Tell me about diabetes prevention";
       `"What are diabetes management tips?";
       `"Explain diabetes complications"]
    else if contains `"blood pressure" message_lower
            || contains `"hypertension" message_lower then
      [`"How to lower blood pressure naturally?";
       `"What foods help with blood pressure?";
       `"Explain blood pressure readings"]
    else if contains `"symptom" message_lower then
      [`"Should I see a doctor?"; `"What are the treatment options?";
       `"Are there home remedies?"]
    else default_suggestions
  else
    if contains diabetes_bn message || contains `"diabetes" message_lower
    then [suggest_prevention_bn; suggest_control_bn;
          suggest_complications_bn]
    else default_suggestions.

(** The request model [ChatRequest]. *)
Record ChatRequest := {
  request_message : str;
  request_language : str;
  request_history : option (list turn);
  request_context : option dict;
  request_use_medical_mode : bool
}.

(** The double [0.9], the fixed confidence of a chat response. *)
Variable float_confidence : pyfloat.

(** The response model [ChatResponse], without the wall-clock
    [processing_time]. *)
Record ChatResponse := {
  response_success : bool;
  response_message : option str;
  response_language : option str;
  response_model_used : option str;
  response_confidence : option pyfloat;
  response_suggestions : option (list str);
  response_error : option str
}.

(** The [HTTPException] a route raises: its status and the exception whose
    text its detail quotes. *)
Inductive http_error := HTTPException (status_code : Z) (cause : exn).

(** The locale the route passes on: detected by the helper when the
    request says "auto" or nothing. *)
Definition route_language (request : ChatRequest) : str :=
  let language := request_language request in
  if str_eqb language `"auto" || str_eqb language []
  then detect_language (request_message request) else language.

(** The route [POST /chat]: a response, or ([inl]) the [HTTPException]
    raised when the service call raises. *)
Definition chat_route (self : AIService) (request : ChatRequest)
    (log : list event) : sum http_error ChatResponse * list event :=
  let lang := route_language request in
  let conversation_history :=
    match request_history request with
    | Some history => history
    | None => []
    end in
  match chat self (request_message request) lang conversation_history
          (request_use_medical_mode request) (request_context request) log
  with
  | (inl e, log') => (inl (HTTPException 500 e), log')
  | (inr result, log') =>
      if success result then
        (inr {| response_success := true;
                response_message := message result;
                response_language :=
                  match language result with
                  | Some l => Some l
                  | None => Some lang
                  end;
                response_model_used := model_used result;
                response_confidence := Some float_confidence;
                response_suggestions :=
                  Some (_generate_suggestions (request_message request)
                          lang);
                response_error := None |}, log')
      else
        (inr {| response_success := false; response_message := None;
                response_language := None; response_model_used := None;
                response_confidence := None; response_suggestions := None;
                response_error :=
                  match error result with
                  | Some e => Some e
                  | None => Some `"Chat processing failed"
                  end |}, log')
  end.

(** * The specification's reading of the operations *)

(** ** Risk level (spec 4.7) *)

(** Some emergency phrase occurs in the symptom text. *)
Definition emergency_match (symptoms : list str) : Prop :=
  exists em a b,
    In em emergency_symptoms /\
    join `" " (map lower symptoms) = a ++ em ++ b.

(** The rules in their priority order; a later rule applies only when no
    earlier one does. *)
Inductive risk_rule (symptoms : list str) (severity : option str)
    : str -> Prop :=
| rule_emergency :
    emergency_match symptoms -> risk_rule symptoms severity `"high"
| rule_severe :
    ~ emergency_match symptoms -> severity = Some `"severe" ->
    risk_rule symptoms severity `"high"
| rule_medium :
    ~ emergency_match symptoms -> severity <> Some `"severe" ->
    severity = Some `"moderate" \/ (3 < length symptoms)%nat ->
    risk_rule symptoms severity `"medium"
| rule_low :
    ~ emergency_match symptoms -> severity <> Some `"severe" ->
    severity <> Some `"moderate" -> (length symptoms <= 3)%nat ->
    risk_rule symptoms severity `"low".

(** ** Language detection (spec 4.1) *)

Definition bengali_count (text : str) : N := count_if is_bengali text.

(** Characters that are not white space. *)
Definition non_whitespace_count (text : str) : N :=
  count_if (fun c => negb (isspace c)) text.

(** Characters other than the space and the line feed. *)
Definition counted (c : char) : bool := negb (c =? 32) && negb (c =? 10).
Definition counted_count (text : str) : N := count_if counted text.

(** The detector as the specification words it: the second locale exactly
    when Bengali characters are more than 0.2 of the non-whitespace ones,
    the default locale otherwise. *)
Definition detects_by_whitespace_ratio (detect : str -> str) (text : str)
    : Prop :=
  (detect text = `"bn" <->
   non_whitespace_count text < 5 * bengali_count text) /\
  (detect text <> `"bn" -> detect text = `"en").

(** ** Lab reports (spec 4.6) *)

(** The lines of the text that contain a colon, in source order. *)
Definition colon_lines (text : str) : list str :=
  filter (fun line => mem 58 line) (split 10 text).

(** [row] is the row of [line]: the trimmed text before the first colon
    and the trimmed text after it. *)
Definition row_of_line (line : str) (row : lab_test) : Prop :=
  exists before after,
    line = before ++ 58 :: after /\ ~ In 58 before /\
    row = {| test_name := strip before; test_result := strip after |}.

(** ** Recommendations (spec 4.8) *)

(** A trimmed line qualifies when its first character is a digit, a dash
    or a bullet. *)
Definition qualifies (line : str) : bool :=
  match line with
  | [] => false
  | c :: _ => isdigit c || (c =? 45) || (c =? bullet)
  end.

Definition qualifying_lines (text : str) : list str :=
  filter qualifies (map strip (split 10 text)).

Definition non_empty (s : str) : bool := negb (str_eqb s []).

(** The qualifying lines without their leading enumerator characters, the
    empty results dropped. *)
Definition entries (text : str) : list str :=
  filter non_empty (map (lstrip enumerator_chars) (qualifying_lines text)).

(** No line of [text], once trimmed, begins with a digit outside ASCII. *)
Definition ascii_numbered (text : str) : bool :=
  forallb (fun line =>
             match strip line with
             | [] => true
             | c :: _ => is_ascii c || negb (isdigit c)
             end)
          (split 10 text).

(** A trimmed line is an item when its first character is one of 0-9, a
    dash or a bullet. *)
Definition starts_item (line : str) : bool :=
  match line with
  | [] => false
  | c :: _ => ascii_isdigit c || (c =? 45) || (c =? bullet)
  end.

Definition item_lines (text : str) : list str :=
  filter starts_item (map strip (split 10 text)).

(** The items without their leading run of the characters 0-9, dot, dash,
    bullet and space, the empty results dropped. *)
Definition item_entries (text : str) : list str :=
  filter non_empty (map (lstrip enumerator_chars) (item_lines text)).

(** The parser as the specification words it: the default list when no
    line qualifies. *)
Definition recommendations_as_stated (text : str) : list str :=
  match qualifying_lines text with
  | [] => default_recommendations
  | _ :: _ => firstn 5 (entries text)
  end.

(** ** Chat orchestration (spec 4.3) *)

Section ChatCall.

Variables (self : AIService) (message lang : str)
  (conversation_history : list turn) (use_medical_mode : bool)
  (context : option dict).

(** The system prompt of this call. *)
Definition call_system_prompt : str :=
  chat_system_prompt (resolve_language lang message) use_medical_mode context.

Definition primary_request : list turn :=
  groq_messages message conversation_history call_system_prompt.

Definition secondary_request : str :=
  gemini_full_prompt message conversation_history call_system_prompt.

(** What each provider would answer to the request of this call; [None]
    for a provider that is not configured. *)
Definition primary_outcome : option (sum str groq_reply) :=
  option_map (fun client => client default_groq_model primary_request)
    (groq_client self).

Definition secondary_outcome : option (sum str str) :=
  option_map (fun model => model secondary_request) (gemini_model self).

(** The outbound calls the fallback order allows: the primary provider
    once if it is configured, then, unless the primary succeeded, the
    secondary once if it is configured. *)
Definition secondary_calls : list event :=
  match secondary_outcome with
  | Some _ => [GeminiCall secondary_request]
  | None => []
  end.

Definition expected_calls : list event :=
  match primary_outcome with
  | Some (inr _) => [GroqCall default_groq_model primary_request]
  | Some (inl _) => GroqCall default_groq_model primary_request :: secondary_calls
  | None => secondary_calls
  end.

End ChatCall.

Definition call_failed {A} (o : option (sum str A)) : Prop :=
  exists e, o = Some (inl e).

Definition call_succeeded {A} (o : option (sum str A)) : Prop :=
  exists a, o = Some (inr a).

Definition is_primary_call (e : event) : bool :=
  match e with
  | GroqCall _ _ => true
  | GeminiCall _ => false
  end.

Definition is_secondary_call (e : event) : bool :=
  match e with
  | GroqCall _ _ => false
  | GeminiCall _ => true
  end.

Definition attempts (p : event -> bool) (calls : list event) : nat :=
  length (filter p calls).

(** The locale passed is treated as "en": the system prompt of the call,
    directive included, is the one of locale "en", and the response carries
    the locale as it was passed. *)
Definition treated_as_english (lang : str) : Prop :=
  forall self message conversation_history use_medical_mode context log,
    call_system_prompt message lang use_medical_mode context
      = chat_system_prompt `"en" use_medical_mode context
    /\ exists d log',
         chat self message lang conversation_history use_medical_mode
           context log = (inr d, log')
         /\ language d = Some lang.

(** ** Prescriptions (spec 4.5) *)

(** Every match of [r] captures group [n]: the group lies on every path
    through the pattern. *)
Fixpoint sets_group (n : nat) (r : regex) : bool :=
  match r with
  | Cat a b => sets_group n a || sets_group n b
  | Alt a b => sets_group n a && sets_group n b
  | Group m a => Nat.eqb m n || sets_group n a
  | _ => false
  end.

Definition has_group (n : nat) (gs : list (nat * str)) : Prop :=
  lookup_group n gs <> None.

(** The first pattern of the list that matches somewhere in the text. *)
Fixpoint first_match (patterns : list regex) (text : str) : option rmatch :=
  match patterns with
  | [] => None
  | pattern :: patterns' =>
      match search pattern text with
      | Some m => Some m
      | None => first_match patterns' text
      end
  end.

(** The match in the first line that has one. *)
Fixpoint first_line_match (r : regex) (lines : list str) : option rmatch :=
  match lines with
  | [] => None
  | line :: lines' =>
      match search r line with
      | Some m => Some m
      | None => first_line_match r lines'
      end
  end.

(** Each field of the record by its own rule, a function of the text
    alone. *)
Definition doctor_rule (text : str) : option str :=
  option_map (fun m => strip (whole m))
    (first_line_match doctor_pattern (split 10 text)).

Definition date_rule (text : str) : option str :=
  option_map whole (first_match date_patterns text).

Definition label_rule (patterns : list regex) (text : str) : option str :=
  match first_match patterns text with
  | Some m => option_map strip (group m 1)
  | None => None
  end.

Definition patient_rule : str -> option str := label_rule patient_patterns.
Definition diagnosis_rule : str -> option str := label_rule diagnosis_patterns.

Definition medication_rule (text : str) : list medication :=
  map med_info (filter is_medication_line (split 10 text)).

(** The record with [ms] appended to its medications. *)
Definition with_medications (ms : list medication) (d : prescription)
    : prescription :=
  {| doctor_name := doctor_name d; hospital := hospital d; date := date d;
     patient_name := patient_name d; medications := medications d ++ ms;
     diagnosis := diagnosis d; instructions := instructions d |}.

Definition prescription_by_rules (text : str) : prescription :=
  {| doctor_name := doctor_rule text; hospital := None;
     date := date_rule text; patient_name := patient_rule text;
     medications := medication_rule text;
     diagnosis := diagnosis_rule text; instructions := None |}.

(** ** Further readings used by the properties below *)

(** [a] occurs in [s]. *)
Definition substring (a s : str) : Prop := exists pre post, s = pre ++ a ++ post.

(** A match state that belongs to a run over [text]: the cursor stands
    [pos] characters into the text, and every captured group occurs in
    it. *)
Definition in_text (text : str) (st : mstate) : Prop :=
  (exists pre, text = pre ++ rest st /\ length pre = pos st) /\
  (forall n g, In (n, g) (groups st) -> substring g text).

(** Some member of the family has a disease whose lower-cased name
    contains one of the conditions. *)
Definition family_has (conditions : list str)
    (family_members : list FamilyMember) : Prop :=
  exists member diseases disease condition,
    In member family_members /\ chronic_diseases member = Some diseases /\
    In disease diseases /\ In condition conditions /\
    substring condition (lower disease).

(** The test the two loops of [_assess_family_risks] make. *)
Definition found_in (diseases : list str) (condition : str) : bool :=
  existsb (fun c => contains condition c) diseases.

(** What every list entry produced by the parsers of free text obeys. *)
Definition clean_entry (r : str) : Prop :=
  r <> [] /\ ~ In 10 r /\
  forall c r', r = c :: r' -> mem c enumerator_chars = false.

(** A tip made from [text]. *)
Definition tip_from (text : str) (t : health_tip) : Prop :=
  icon t = `"health_and_safety" /\ ~ In 58 (title t) /\
  substring (title t) text /\ substring (description t) text.

(** * Properties *)

(** ** Strings *)

Lemma str_eqb_eq (a b : str) : str_eqb a b = true <-> a = b.
Proof.
  revert b; induction a as [|x a IH]; intros [|y b]; simpl;
    try (split; congruence).
  unfold chr_eqb. rewrite andb_true_iff, N.eqb_eq, IH.
  split; [intros [-> ->]; reflexivity | intros H; inversion H; auto].
Qed.

Lemma str_eqb_refl (a : str) : str_eqb a a = true.
Proof. apply str_eqb_eq; reflexivity. Qed.

Lemma str_eqb_neq (a b : str) : str_eqb a b = false <-> a <> b.
Proof.
  rewrite <- str_eqb_eq. destruct (str_eqb a b); split; congruence.
Qed.

Lemma startswith_spec (p s : str) :
  startswith p s = true <-> exists t, s = p ++ t.
Proof.
  revert s; induction p as [|x p IH]; intros s; simpl.
  - split; [intros _; exists s; reflexivity | reflexivity].
  - destruct s as [|y s].
    + split; [discriminate | intros [t H]; discriminate].
    + unfold chr_eqb. rewrite andb_true_iff, N.eqb_eq, IH. split.
      * intros [-> [t ->]]. exists t; reflexivity.
      * intros [t H]. inversion H; subst. split; [reflexivity | exists t; reflexivity].
Qed.

(** [needle in hay] is the substring relation. *)
Lemma contains_spec (needle hay : str) :
  contains needle hay = true <-> exists a b, hay = a ++ needle ++ b.
Proof.
  induction hay as [|c hay IH].
  - simpl. rewrite orb_false_r, startswith_spec. split.
    + intros [t H]. exists [], t. exact H.
    + intros [a [b H]]. destruct a; [exists b; exact H | discriminate].
  - cbn [contains]. rewrite orb_true_iff, startswith_spec, IH. split.
    + intros [[t H] | [a [b H]]].
      * exists [], t. exact H.
      * exists (c :: a), b. simpl. rewrite H. reflexivity.
    + intros [[|x a] [b H]].
      * left. exists b. exact H.
      * right. inversion H; subst. exists a, b. reflexivity.
Qed.

Lemma contains_char (c : char) (s : str) :
  contains [c] s = true <-> In c s.
Proof.
  rewrite contains_spec. split.
  - intros [a [b ->]]. apply in_or_app. right. left. reflexivity.
  - intros H. apply in_split in H. destruct H as [a [b ->]]. exists a, b.
    reflexivity.
Qed.

Lemma split_not_nil (sep : char) (s : str) : split sep s <> [].
Proof.
  destruct s as [|c s]; simpl; [discriminate|].
  destruct (chr_eqb c sep); [discriminate|].
  destruct (split sep s); discriminate.
Qed.

(** Joining the fields of [s.split(sep)] with [sep] gives [s] back. *)
Lemma join_split (sep : char) (s : str) : join [sep] (split sep s) = s.
Proof.
  induction s as [|c s IH]; [reflexivity|].
  simpl. destruct (chr_eqb c sep) eqn:E.
  - apply N.eqb_eq in E. subst c.
    pose proof (split_not_nil sep s) as Hn.
    destruct (split sep s) as [|f fs]; [contradiction|].
    cbn [join]. cbn [join] in IH. rewrite IH. reflexivity.
  - pose proof (split_not_nil sep s) as Hn.
    destruct (split sep s) as [|f fs]; [contradiction|].
    destruct fs as [|g fs]; cbn [join] in *; simpl; rewrite <- IH; reflexivity.
Qed.

(** No field of [s.split(sep)] contains the separator. *)
Lemma split_fields (sep : char) (s : str) :
  Forall (fun f => ~ In sep f) (split sep s).
Proof.
  induction s as [|c s IH]; simpl.
  - constructor; [intros [] | constructor].
  - destruct (chr_eqb c sep) eqn:E.
    + constructor; [intros [] | exact IH].
    + apply N.eqb_neq in E.
      destruct (split sep s) as [|f fs]; [constructor; [|constructor]|].
      * intros [H | []]. congruence.
      * inversion IH; subst. constructor; [|assumption].
        intros [H | H]; [congruence | contradiction].
Qed.

(** [s.split(sep, 1)] cuts at the first separator. *)
Lemma split1_cut (sep : char) (s : str) :
  In sep s ->
  exists a b, split1 sep s = [a; b] /\ s = a ++ sep :: b /\ ~ In sep a.
Proof.
  induction s as [|c s IH]; [intros []|].
  intros H. simpl. destruct (chr_eqb c sep) eqn:E.
  - apply N.eqb_eq in E. subst c. exists [], s. auto.
  - apply N.eqb_neq in E. destruct H as [H | H]; [congruence|].
    destruct (IH H) as [a [b [Hs [Hcat Hn]]]]. rewrite Hs.
    exists (c :: a), b. repeat split.
    + simpl. rewrite Hcat. reflexivity.
    + intros [H' | H']; [congruence | contradiction].
Qed.

(** ** Risk level *)

Lemma opt_str_eqb_eq (o : option str) (s : str) :
  opt_str_eqb o s = true <-> o = Some s.
Proof.
  destruct o as [x|]; simpl.
  - rewrite str_eqb_eq. split; congruence.
  - split; discriminate.
Qed.

Lemma emergency_check (symptoms : list str) :
  existsb (fun em => contains em (join `" " (map lower symptoms)))
    emergency_symptoms = true
  <-> emergency_match symptoms.
Proof.
  rewrite existsb_exists. unfold emergency_match. split.
  - intros [em [Hin Hc]]. apply contains_spec in Hc.
    destruct Hc as [a [b Hc]]. exists em, a, b. auto.
  - intros [em [a [b [Hin Hc]]]]. exists em. split; [exact Hin|].
    apply contains_spec. exists a, b. exact Hc.
Qed.

(** The three levels are different strings. *)
Lemma levels_distinct :
  `"high" <> `"medium" /\ `"high" <> `"low" /\ `"medium" <> `"low".
Proof. repeat split; discriminate. Qed.

(** C1: risk-level determination applies the rules emergency phrase,
    severity "severe", severity "moderate" or more than three symptoms,
    otherwise low, in that order, and the first rule that applies decides:
    a level is returned exactly when the rules give it. *)
Theorem determine_risk_level_rules (symptoms : list str)
    (severity : option str) (level : str) :
  _determine_risk_level symptoms severity = level
  <-> risk_rule symptoms severity level.
Proof.
  unfold _determine_risk_level.
  pose proof (emergency_check symptoms) as He.
  pose proof (opt_str_eqb_eq severity `"severe") as Hs.
  pose proof (opt_str_eqb_eq severity `"moderate") as Hm.
  destruct (existsb _ emergency_symptoms) eqn:Ee.
  { assert (Hy : emergency_match symptoms) by (apply He; reflexivity).
    split.
    - intros <-. apply rule_emergency, Hy.
    - intros H. inversion H; subst; try reflexivity; contradiction. }
  assert (Hn : ~ emergency_match symptoms)
    by (intros Hy; apply He in Hy; discriminate).
  destruct (opt_str_eqb severity `"severe") eqn:Es.
  { assert (Hsev : severity = Some `"severe") by (apply Hs; reflexivity).
    split.
    - intros <-. apply rule_severe; assumption.
    - intros H. inversion H; subst; try reflexivity; contradiction. }
  assert (Hns : severity <> Some `"severe")
    by (intros Hy; apply Hs in Hy; discriminate).
  destruct (opt_str_eqb severity `"moderate") eqn:Em; simpl.
  { assert (Hmod : severity = Some `"moderate") by (apply Hm; reflexivity).
    split.
    - intros <-. apply rule_medium; auto.
    - intros H. inversion H; subst; try reflexivity; contradiction. }
  assert (Hnm : severity <> Some `"moderate")
    by (intros Hy; apply Hm in Hy; discriminate).
  destruct (3 <? length symptoms)%nat eqn:El.
  - apply Nat.ltb_lt in El. split.
    + intros <-. apply rule_medium; auto.
    + intros H. inversion H; subst; try reflexivity; try contradiction. lia.
  - apply Nat.ltb_ge in El. split.
    + intros <-. apply rule_low; auto.
    + intros H. inversion H; subst; try reflexivity; try contradiction.
      destruct H2 as [H2 | H2]; [contradiction | lia].
Qed.

(** The examples of the specification (spec 8). *)
Example risk_chest_pain :
  _determine_risk_level [`"chest pain"] None = `"high".
Proof. vm_compute. reflexivity. Qed.

Example risk_four_headaches :
  _determine_risk_level
    [`"mild headache"; `"mild headache"; `"mild headache"; `"mild headache"]
    None = `"medium".
Proof. vm_compute. reflexivity. Qed.

Example risk_tiredness : _determine_risk_level [`"tiredness"] None = `"low".
Proof. vm_compute. reflexivity. Qed.

(** C9: the emergency check looks for each phrase in the lower-cased
    symptoms joined by spaces, not in each symptom on its own.  For the
    symptoms "severe" and "bleeding" no single symptom contains an emergency
    phrase, the joined text contains "severe bleeding", and the level is
    "high" although no other rule would raise it above "low". *)
Theorem risk_level_joins_symptoms :
  (forall symptoms,
     existsb (fun em => contains em (join `" " (map lower symptoms)))
       emergency_symptoms = true ->
     forall severity, _determine_risk_level symptoms severity = `"high")
  /\ forallb (fun s =>
        negb (existsb (fun em => contains em (lower s)) emergency_symptoms))
       [`"severe"; `"bleeding"] = true
  /\ contains `"severe bleeding"
       (join `" " (map lower [`"severe"; `"bleeding"])) = true
  /\ _determine_risk_level [`"severe"; `"bleeding"] None = `"high"
  /\ _determine_risk_level [`"severe"] None = `"low"
  /\ _determine_risk_level [`"bleeding"] None = `"low".
Proof.
  split.
  - intros symptoms H severity. unfold _determine_risk_level.
    rewrite H. reflexivity.
  - repeat split; vm_compute; reflexivity.
Qed.

(** ** Language detection *)

Lemma count_if_cons (p : char -> bool) (c : char) (s : str) :
  count_if p (c :: s) = (if p c then 1 else 0) + count_if p s.
Proof.
  unfold count_if. simpl. destruct (p c); simpl length; lia.
Qed.

Lemma count_if_le (p q : char -> bool) (s : str) :
  (forall c, p c = true -> q c = true) -> count_if p s <= count_if q s.
Proof.
  intros H. induction s as [|c s IH].
  - reflexivity.
  - rewrite !count_if_cons.
    destruct (p c) eqn:P; [rewrite (H c P) | destruct (q c)]; lia.
Qed.

Lemma count_if_zero (p : char -> bool) (s : str) :
  count_if p s = 0 <-> forall c, In c s -> p c = false.
Proof.
  induction s as [|c s IH].
  - split; [intros _ c [] | reflexivity].
  - rewrite count_if_cons. split.
    + intros H x [<- | Hx].
      * destruct (p c); [lia | reflexivity].
      * apply IH; [destruct (p c); lia | exact Hx].
    + intros H. rewrite (H c (or_introl eq_refl)).
      apply IH. intros x Hx. apply H. right. exact Hx.
Qed.

(** What [len(text.replace(' ', '').replace('\n', ''))] counts. *)
Lemma total_chars_counted (text : str) :
  N.of_nat (length (remove_char 10 (remove_char 32 text))) = counted_count text.
Proof.
  unfold counted_count, count_if, remove_char. f_equal. f_equal.
  induction text as [|c text IH]; [reflexivity|].
  unfold counted, chr_eqb in *. simpl.
  destruct (c =? 32); simpl; [exact IH|].
  destruct (c =? 10); simpl; [exact IH|]. rewrite IH. reflexivity.
Qed.

Lemma bengali_is_counted (c : char) : is_bengali c = true -> counted c = true.
Proof.
  unfold is_bengali, counted. intros H. apply andb_true_iff in H.
  destruct H as [H1 H2]. apply N.leb_le in H1.
  apply andb_true_iff. split; apply negb_true_iff, N.eqb_neq; lia.
Qed.

Lemma bengali_le_counted (text : str) :
  bengali_count text <= counted_count text.
Proof. apply count_if_le, bengali_is_counted. Qed.

Lemma _detect_language_cases (text : str) :
  _detect_language text =
    if counted_count text <? 5 * bengali_count text then `"bn" else `"en".
Proof.
  unfold _detect_language. rewrite total_chars_counted.
  fold (bengali_count text). pose proof (bengali_le_counted text) as Hle.
  destruct (counted_count text <? 5 * bengali_count text) eqn:E.
  - apply N.ltb_lt in E.
    assert (H0 : (0 <? counted_count text) = true) by (apply N.ltb_lt; lia).
    rewrite H0. reflexivity.
  - rewrite andb_false_r. reflexivity.
Qed.

Lemma detect_language_cases (text : str) :
  detect_language text = if existsb is_bengali text then `"bn" else `"en".
Proof. destruct text; reflexivity. Qed.

(** C3: [AIService._detect_language] returns "bn" exactly when the Bengali
    characters are more than 0.2 of the characters other than the space and
    the line feed (five times their number exceeds that count), and "en"
    otherwise, in particular when no character is counted; the route-level
    helper [detect_language] returns "bn" exactly when the text holds a
    Bengali character, and "en" otherwise. *)
Theorem detect_language_threshold (text : str) :
  (_detect_language text = `"bn" <->
   counted_count text < 5 * bengali_count text) /\
  (_detect_language text <> `"bn" -> _detect_language text = `"en") /\
  (counted_count text = 0 -> _detect_language text = `"en") /\
  (detect_language text = `"bn" <-> exists c, In c text /\ is_bengali c = true) /\
  (detect_language text <> `"bn" -> detect_language text = `"en").
Proof.
  rewrite _detect_language_cases, detect_language_cases.
  pose proof (bengali_le_counted text) as Hle.
  assert (Hhelper :
    ((if existsb is_bengali text then `"bn" else `"en") = `"bn" <->
     exists c, In c text /\ is_bengali c = true) /\
    ((if existsb is_bengali text then `"bn" else `"en") <> `"bn" ->
     (if existsb is_bengali text then `"bn" else `"en") = `"en")).
  { rewrite <- existsb_exists. destruct (existsb is_bengali text).
    - split; [split; reflexivity | intros H; contradiction H; reflexivity].
    - split; [split; discriminate | reflexivity]. }
  destruct Hhelper as [Hh1 Hh2].
  destruct (counted_count text <? 5 * bengali_count text) eqn:E;
    [apply N.ltb_lt in E | apply N.ltb_ge in E].
  - split; [split; [intros _; exact E | reflexivity]|].
    split; [intros H; contradiction H; reflexivity|].
    split; [intros H; lia|].
    split; assumption.
  - split; [split; [discriminate | intros H; lia]|].
    split; [intros _; reflexivity|].
    split; [intros _; reflexivity|].
    split; assumption.
Qed.

(** The properties of spec 8: no Bengali character gives the default
    locale, a non-empty text of Bengali characters only gives "bn". *)
Lemma _detect_language_no_bengali (text : str) :
  (forall c, In c text -> is_bengali c = false) ->
  _detect_language text = `"en".
Proof.
  intros H. rewrite _detect_language_cases.
  apply count_if_zero in H. unfold bengali_count. rewrite H.
  destruct (counted_count text <? 5 * 0) eqn:E; [|reflexivity].
  apply N.ltb_lt in E. lia.
Qed.

Lemma _detect_language_all_bengali (text : str) :
  text <> [] -> forallb is_bengali text = true ->
  _detect_language text = `"bn".
Proof.
  intros Hne Hall. rewrite _detect_language_cases.
  assert (Hc : counted_count text = bengali_count text /\
               0 < bengali_count text).
  { unfold counted_count, bengali_count.
    assert (G : forall s, forallb is_bengali s = true ->
                count_if counted s = count_if is_bengali s).
    { induction s as [|c s IH]; [reflexivity|]. simpl. intros H.
      apply andb_true_iff in H. destruct H as [H1 H2].
      rewrite !count_if_cons, H1, (bengali_is_counted c H1), (IH H2).
      reflexivity. }
    split; [apply G, Hall|].
    destruct text as [|c s]; [contradiction Hne; reflexivity|]. simpl in Hall.
    apply andb_true_iff in Hall. destruct Hall as [H1 H2].
    rewrite count_if_cons, H1. lia. }
  destruct Hc as [-> Hpos].
  assert (E : (bengali_count text <? 5 * bengali_count text) = true)
    by (apply N.ltb_lt; lia).
  rewrite E. reflexivity.
Qed.

(** ** Lab reports *)

Lemma mem_In (c : char) (s : str) : mem c s = true <-> In c s.
Proof.
  unfold mem. rewrite existsb_exists. unfold chr_eqb. split.
  - intros [x [Hx E]]. apply N.eqb_eq in E. subst x. exact Hx.
  - intros H. exists c. split; [exact H | apply N.eqb_refl].
Qed.

Lemma contains_colon (line : str) : contains `":" line = mem 58 line.
Proof.
  change (`":") with [58 : char].
  destruct (mem 58 line) eqn:E.
  - apply contains_char, mem_In, E.
  - destruct (contains [58] line) eqn:C; [|assumption || reflexivity].
    apply contains_char, mem_In in C. congruence.
Qed.

(** The first colon of a line is where it is: two cuts of the same line
    before a colon-free prefix agree. *)
Lemma first_cut_unique (c : char) (a a' b b' : str) :
  a ++ c :: b = a' ++ c :: b' -> ~ In c a -> ~ In c a' -> a = a' /\ b = b'.
Proof.
  revert a'. induction a as [|x a IH]; intros [|y a'] H Ha Ha'.
  - inversion H. auto.
  - inversion H; subst. contradiction Ha'. left. reflexivity.
  - inversion H; subst. contradiction Ha. left. reflexivity.
  - inversion H; subst.
    destruct (IH a') as [-> ->]; auto.
    + intros Hin. apply Ha. right. exact Hin.
    + intros Hin. apply Ha'. right. exact Hin.
Qed.

Lemma row_of_line_unique (line : str) (r1 r2 : lab_test) :
  row_of_line line r1 -> row_of_line line r2 -> r1 = r2.
Proof.
  intros [a [b [H1 [Ha ->]]]] [a' [b' [H2 [Ha' ->]]]].
  rewrite H1 in H2. destruct (first_cut_unique _ _ _ _ _ H2 Ha Ha') as [-> ->].
  reflexivity.
Qed.

Lemma lab_rows_spec (lines : list str) :
  Forall2 row_of_line (filter (fun line => mem 58 line) lines)
    (lab_rows lines).
Proof.
  induction lines as [|line lines IH]; simpl; [constructor|].
  rewrite contains_colon. destruct (mem 58 line) eqn:E; [|exact IH].
  apply mem_In in E. destruct (split1_cut 58 line E) as [a [b [Hs [Hl Ha]]]].
  rewrite Hs. constructor; [|exact IH].
  exists a, b. auto.
Qed.

(** C4: the lab-report extractor gives, for the lines of the text that
    contain a colon and in their order, one row each, made of the trimmed
    text before the line's first colon and the trimmed text after it; the
    other lines give nothing; the lines are the pieces of the text between
    its line feeds.  The text "Hemoglobin: 13.5 g/dL", line feed,
    "WBC: 7200" gives the rows (Hemoglobin, 13.5 g/dL) and (WBC, 7200). *)
Theorem lab_report_rows :
  (forall text,
     Forall2 row_of_line (colon_lines text) (tests (_parse_lab_report text)))
  /\ (forall text,
        join [10] (split 10 text) = text /\
        Forall (fun line => ~ In 10 line) (split 10 text))
  /\ parse_document (`"Hemoglobin: 13.5 g/dL" ++ [10] ++ `"WBC: 7200")
       `"lab_report"
     = LabReport
         {| lab_patient_name := None; lab_date := None;
            tests := [{| test_name := `"Hemoglobin";
                         test_result := `"13.5 g/dL" |};
                      {| test_name := `"WBC"; test_result := `"7200" |}] |}.
Proof.
  split; [|split].
  - intros text. apply lab_rows_spec.
  - intros text. split; [apply join_split | apply split_fields].
  - vm_compute. reflexivity.
Qed.

(** C10: whatever the text, the record of the lab-report extractor has no
    patient name and no date; two texts that give the same rows give the
    same record. *)
Theorem lab_report_header_empty (text : str) :
  lab_patient_name (_parse_lab_report text) = None /\
  lab_date (_parse_lab_report text) = None /\
  (forall other,
     tests (_parse_lab_report other) = tests (_parse_lab_report text) ->
     _parse_lab_report other = _parse_lab_report text).
Proof.
  split; [reflexivity|]. split; [reflexivity|].
  intros other H. unfold _parse_lab_report in *. simpl in H.
  rewrite H. reflexivity.
Qed.

(** ** Recommendations *)

Lemma is_list_item_qualifies (line : str) : is_list_item line = qualifies line.
Proof.
  destruct line as [|c line]; [reflexivity|].
  unfold is_list_item, qualifies. change (`"-") with [45 : char].
  cbn [startswith]. unfold chr_eqb.
  rewrite !andb_true_r, (N.eqb_sym 45 c), (N.eqb_sym bullet c). reflexivity.
Qed.

Lemma collect_recommendations_spec (lines : list str) :
  collect_recommendations lines =
  filter non_empty
    (map (lstrip enumerator_chars) (filter qualifies (map strip lines))).
Proof.
  induction lines as [|line lines IH]; [reflexivity|].
  simpl. rewrite is_list_item_qualifies.
  destruct (qualifies (strip line)); [|exact IH].
  simpl. destruct (lstrip enumerator_chars (strip line)) as [|c s] eqn:E.
  - simpl. exact IH.
  - unfold non_empty at 1. simpl. rewrite IH. reflexivity.
Qed.

(** What the recommendations parser returns, for every text. *)
Lemma extract_recommendations_run (text : str) :
  _extract_recommendations text =
  match entries text with
  | [] => default_recommendations
  | _ :: _ => firstn 5 (entries text)
  end.
Proof.
  unfold _extract_recommendations, entries, qualifying_lines.
  rewrite collect_recommendations_spec.
  destruct (filter non_empty _) as [|e es]; reflexivity.
Qed.

Lemma isdigit_ascii (c : char) :
  is_ascii c || negb (isdigit c) = true -> isdigit c = ascii_isdigit c.
Proof.
  unfold isdigit. destruct (is_ascii c) eqn:Ha; [reflexivity|].
  simpl. intros H. apply negb_true_iff in H. rewrite H. symmetry.
  unfold is_ascii in Ha. apply N.ltb_ge in Ha.
  unfold ascii_isdigit. apply andb_false_iff. right. apply N.leb_gt. lia.
Qed.

Lemma item_lines_qualifying (text : str) :
  ascii_numbered text = true -> qualifying_lines text = item_lines text.
Proof.
  unfold ascii_numbered, qualifying_lines, item_lines.
  induction (split 10 text) as [|line lines IH]; [reflexivity|].
  cbn [forallb map filter]. intros H.
  apply andb_true_iff in H. destruct H as [Hline Hlines].
  rewrite (IH Hlines).
  destruct (strip line) as [|c rest]; [reflexivity|].
  unfold qualifies, starts_item. rewrite (isdigit_ascii c Hline).
  reflexivity.
Qed.

(** C8: take a text in which no line, once trimmed, begins with a digit
    outside ASCII.  The recommendations parser returns, in source order and
    capped at five, the lines whose first character after trimming is a
    digit, a dash or a bullet, each without its leading run of the
    characters 0-9, dot, dash, bullet and space, and without the results
    that are empty; when no entry is left it returns the fixed list of four.
    For every text it returns at most five entries, and on "1. Drink water",
    "2. Sleep 8 hours", "Some prose" it returns "Drink water" and "Sleep 8
    hours". *)
Theorem extract_recommendations_entries :
  (forall text,
     ascii_numbered text = true ->
     _extract_recommendations text =
       match item_entries text with
       | [] => default_recommendations
       | _ :: _ => firstn 5 (item_entries text)
       end)
  /\ (forall text, (length (_extract_recommendations text) <= 5)%nat)
  /\ length default_recommendations = 4%nat
  /\ _extract_recommendations
       (`"1. Drink water" ++ [10] ++ `"2. Sleep 8 hours" ++ [10]
          ++ `"Some prose")
     = [`"Drink water"; `"Sleep 8 hours"].
Proof.
  split; [|split; [|split]].
  - intros text H. rewrite extract_recommendations_run.
    unfold entries, item_entries. rewrite (item_lines_qualifying text H).
    reflexivity.
  - intros text. rewrite extract_recommendations_run.
    destruct (entries text) as [|e es].
    + simpl. lia.
    + apply firstn_le_length.
  - reflexivity.
  - vm_compute. reflexivity.
Qed.

(** ** Risk factors *)

(** A blood-pressure text with a slash whose part before the slash [int()]
    cannot read makes the whole extraction raise, whatever else was
    passed. *)
Lemma blood_pressure_raises (bp : str) (e : exn) (others : dict)
    (medical_history : option (list str)) (lifestyle_factors : option dict) :
  bp <> [] -> In 47 bp ->
  py_int (hd [] (split 47 bp)) = inl e ->
  _extract_risk_factors (Some ((`"blood_pressure", VStr bp) :: others))
    medical_history lifestyle_factors = inl e.
Proof.
  intros Hne Hin Hint. unfold _extract_risk_factors. cbv beta iota.
  unfold blood_pressure_factors.
  assert (Hget : get ((`"blood_pressure", VStr bp) :: others)
                   `"blood_pressure" = VStr bp).
  { cbn [get]. rewrite str_eqb_refl. reflexivity. }
  rewrite Hget. cbn [truthy py_str].
  apply str_eqb_neq in Hne. rewrite Hne.
  change (`"/") with [47 : char].
  apply contains_char in Hin. rewrite Hin. cbn [negb andb].
  rewrite Hint. reflexivity.
Qed.

(** C7: risk-factor extraction does raise.  With the blood pressure "N/A"
    the text before the slash is no integer, [int()] raises a [ValueError]
    and nothing in the function catches it. *)
Theorem extract_risk_factors_raises :
  _extract_risk_factors (Some [(`"blood_pressure", VStr `"N/A")]) None None
  = inl (ValueError `"N").
Proof.
  apply blood_pressure_raises.
  - discriminate.
  - vm_compute. right. left. reflexivity.
  - vm_compute. reflexivity.
Qed.

(** The numeric rules of spec 4.7 and 8 on well-formed input. *)
Example bmi_obese :
  _extract_risk_factors (Some [(`"bmi", VInt 32)]) None None
  = inr [{| factor := `"High BMI (Obesity)"; impact := `"high" |}].
Proof. vm_compute. reflexivity. Qed.

Example bmi_overweight :
  _extract_risk_factors (Some [(`"bmi", VInt 27)]) None None
  = inr [{| factor := `"Overweight"; impact := `"medium" |}].
Proof. vm_compute. reflexivity. Qed.

Example bmi_normal :
  _extract_risk_factors (Some [(`"bmi", VInt 22)]) None None = inr [].
Proof. vm_compute. reflexivity. Qed.

Example blood_pressure_high :
  _extract_risk_factors (Some [(`"blood_pressure", VStr `"150/90")])
    (Some [`"asthma"]) (Some [(`"smoking", VBool true)])
  = inr [{| factor := `"High Blood Pressure"; impact := `"high" |};
         {| factor := `"History of asthma"; impact := `"medium" |};
         {| factor := `"Smoking"; impact := `"high" |}].
Proof. vm_compute. reflexivity. Qed.

(** ** Chat orchestration *)

Ltac not_succeeded := intros [? ?]; discriminate.
Ltac all_failed :=
  split; [not_succeeded|]; split; [not_succeeded | reflexivity].

(** One run of [chat]: it never raises, and it makes exactly the calls the
    fallback order allows. *)
Lemma chat_run (self : AIService) (msg lang : str)
    (conversation_history : list turn) (use_medical_mode : bool)
    (context : option dict) (log : list event) :
  exists d,
    chat self msg lang conversation_history use_medical_mode context log
    = (inr d,
       log ++ expected_calls self msg lang conversation_history
                use_medical_mode context)
    /\ language d = Some (resolve_language lang msg)
    /\ (success d = true ->
        (exists r, primary_outcome self msg lang conversation_history
                     use_medical_mode context = Some (inr r)
                   /\ model_used d = Some default_groq_model
                   /\ message d = Some (reply_content r))
        \/ (~ call_succeeded (primary_outcome self msg lang
                                conversation_history use_medical_mode context)
            /\ exists text,
                 secondary_outcome self msg lang conversation_history
                   use_medical_mode context = Some (inr text)
                 /\ model_used d = Some `"gemini-1.5-flash"
                 /\ message d = Some text))
    /\ (success d = false ->
        ~ call_succeeded (primary_outcome self msg lang
                            conversation_history use_medical_mode context)
        /\ ~ call_succeeded (secondary_outcome self msg lang
                               conversation_history use_medical_mode context)
        /\ error d = Some `"All AI services are unavailable").
Proof.
  unfold chat, expected_calls, secondary_calls, primary_outcome,
    secondary_outcome, chat_with_groq, chat_with_gemini, call_succeeded.
  fold (call_system_prompt msg lang use_medical_mode context).
  fold (primary_request msg lang conversation_history use_medical_mode
          context).
  fold (secondary_request msg lang conversation_history use_medical_mode
          context).
  unfold io_bind, emit, io_ret.
  destruct (groq_client self) as [client|]; cbn [option_map];
    [destruct (client default_groq_model _) as [e|r]; cbn [success failed]|];
    try (destruct (gemini_model self) as [model|]; cbn [option_map];
         [destruct (model _) as [e'|text]; cbn [success failed]|]);
    eexists; rewrite <- ?app_assoc, ?app_nil_r;
    (split; [reflexivity|]); (split; [reflexivity|]); split;
    try discriminate; intros _;
    first [ all_failed
          | left; exists r; auto
          | right; split; [not_succeeded|]; exists text; auto ].
Qed.

Lemma expected_calls_counts (self : AIService) (msg lang : str)
    (conversation_history : list turn) (use_medical_mode : bool)
    (context : option dict) :
  let calls := expected_calls self msg lang conversation_history
                 use_medical_mode context in
  (attempts is_primary_call calls <= 1)%nat /\
  (attempts is_secondary_call calls <= 1)%nat /\
  (groq_client self = None -> attempts is_primary_call calls = 0%nat) /\
  (gemini_model self = None -> attempts is_secondary_call calls = 0%nat).
Proof.
  unfold expected_calls, secondary_calls, primary_outcome, secondary_outcome.
  destruct (groq_client self) as [client|];
    destruct (gemini_model self) as [model|]; cbn [option_map];
    try destruct (client _ _); try destruct (model _);
    unfold attempts; simpl; repeat split; intros; try lia; discriminate.
Qed.

(** C2: [chat] always returns a dict.  When the primary provider is
    configured and its call fails while the secondary is configured and
    succeeds, the result is a success that names the secondary's model; when
    no provider succeeds, configured or not, the result has success false
    and a non-empty error text.  A run calls each provider at most once and
    an unconfigured provider never. *)
Theorem chat_fallback (self : AIService) (msg lang : str)
    (conversation_history : list turn) (use_medical_mode : bool)
    (context : option dict) (log : list event) :
  exists d calls,
    chat self msg lang conversation_history use_medical_mode context log
    = (inr d, log ++ calls)
    /\ (attempts is_primary_call calls <= 1)%nat
    /\ (attempts is_secondary_call calls <= 1)%nat
    /\ (groq_client self = None -> attempts is_primary_call calls = 0%nat)
    /\ (gemini_model self = None -> attempts is_secondary_call calls = 0%nat)
    /\ (call_failed (primary_outcome self msg lang conversation_history
                       use_medical_mode context) ->
        call_succeeded (secondary_outcome self msg lang conversation_history
                          use_medical_mode context) ->
        success d = true /\ model_used d = Some `"gemini-1.5-flash")
    /\ (~ call_succeeded (primary_outcome self msg lang conversation_history
                            use_medical_mode context) ->
        ~ call_succeeded (secondary_outcome self msg lang
                            conversation_history use_medical_mode context) ->
        success d = false /\ exists e, error d = Some e /\ e <> []).
Proof.
  destruct (chat_run self msg lang conversation_history use_medical_mode
              context log) as [d [Hrun [_ [Hok Hko]]]].
  destruct (expected_calls_counts self msg lang conversation_history
              use_medical_mode context) as [Hp [Hs [Hp0 Hs0]]].
  exists d, (expected_calls self msg lang conversation_history
               use_medical_mode context).
  repeat (split; [assumption|]). split.
  - intros [e He] Hsec. destruct (success d) eqn:Hd.
    + destruct (Hok eq_refl) as [[r [Hr _]] | [_ [text [_ [Hm _]]]]].
      * rewrite He in Hr. discriminate.
      * auto.
    + destruct (Hko eq_refl) as [_ [Hn _]]. contradiction.
  - intros Hnp Hns. destruct (success d) eqn:Hd.
    + destruct (Hok eq_refl) as [[r [Hr _]] | [_ [text [Ht _]]]].
      * contradiction Hnp. exists r. exact Hr.
      * contradiction Hns. exists text. exact Ht.
    + destruct (Hko eq_refl) as [_ [_ He]]. split; [reflexivity|].
      eexists. split; [exact He | discriminate].
Qed.

(** The cases named in spec 8. *)
Example chat_secondary_takes_over :
  let self := {| groq_client := Some (fun _ _ => inl `"timeout");
                 gemini_model := Some (fun _ => inr `"Drink water.") |} in
  chat self `"hello" `"en" [] true None []
  = (inr {| success := true; message := Some `"Drink water.";
            model_used := Some `"gemini-1.5-flash"; usage := None;
            error := None; language := Some `"en" |},
     [GroqCall default_groq_model
        (primary_request `"hello" `"en" [] true None);
      GeminiCall (secondary_request `"hello" `"en" [] true None)]).
Proof. reflexivity. Qed.

Example chat_nothing_configured :
  chat {| groq_client := None; gemini_model := None |}
    `"hello" `"en" [] true None []
  = (inr {| success := false; message := None; model_used := None;
            usage := None;
            error := Some `"All AI services are unavailable";
            language := Some `"en" |}, []).
Proof. reflexivity. Qed.

(** ** Locale handling in [chat] *)

Lemma resolve_language_explicit (lang msg : str) :
  lang <> [] -> lang <> `"auto" -> resolve_language lang msg = lang.
Proof.
  intros H1 H2. unfold resolve_language.
  apply str_eqb_neq in H1. apply str_eqb_neq in H2.
  rewrite H1, H2. reflexivity.
Qed.

Lemma get_system_prompt_not_bn (lang : str) (use_medical_mode : bool) :
  lang <> `"bn" ->
  _get_system_prompt lang use_medical_mode
  = _get_system_prompt `"en" use_medical_mode.
Proof.
  intros H. unfold _get_system_prompt. apply str_eqb_neq in H. rewrite H.
  reflexivity.
Qed.

(** The directive [chat] appends for a locale that is neither "en" nor
    resolved by detection is the Bengali one. *)
Lemma chat_directive_unknown_locale (lang msg : str)
    (use_medical_mode : bool) :
  lang <> [] -> lang <> `"auto" -> lang <> `"en" ->
  call_system_prompt msg lang use_medical_mode None
  = _get_system_prompt lang use_medical_mode ++ directive_bn.
Proof.
  intros H1 H2 H3. unfold call_system_prompt, chat_system_prompt.
  rewrite (resolve_language_explicit msg H1 H2).
  apply str_eqb_neq in H3. rewrite H3, app_nil_r. reflexivity.
Qed.

(** For a locale other than "bn", "auto" and the empty one, [chat] selects
    the system prompt it selects for "en", the prompt it sends starts with
    it, and the response carries the locale as it was passed. *)
Lemma chat_unknown_locale (lang : str) :
  lang <> `"bn" -> lang <> [] -> lang <> `"auto" ->
  forall (self : AIService) (msg : str) (conversation_history : list turn)
         (use_medical_mode : bool) (context : option dict)
         (log : list event),
    _get_system_prompt (resolve_language lang msg) use_medical_mode
    = _get_system_prompt `"en" use_medical_mode
    /\ (exists rest,
          call_system_prompt msg lang use_medical_mode context
          = _get_system_prompt `"en" use_medical_mode ++ rest)
    /\ exists d log',
         chat self msg lang conversation_history use_medical_mode context log
         = (inr d, log')
         /\ language d = Some lang.
Proof.
  intros Hbn Hempty Hauto self msg conversation_history use_medical_mode
    context log.
  pose proof (resolve_language_explicit msg Hempty Hauto) as Hres.
  split; [|split].
  - rewrite Hres. apply get_system_prompt_not_bn, Hbn.
  - unfold call_system_prompt, chat_system_prompt. rewrite Hres.
    rewrite (get_system_prompt_not_bn use_medical_mode Hbn).
    eexists. reflexivity.
  - destruct (chat_run self msg lang conversation_history use_medical_mode
                context log) as [d [Hrun [Hlang _]]].
    exists d. eexists. split; [exact Hrun|]. rewrite Hlang, Hres.
    reflexivity.
Qed.

(** C6: the locale "fr", one the service does not know.  [chat] selects
    for it the system prompt of "en", and the response carries "fr" as it
    was passed; but the language directive appended to that prompt is the
    Bengali one, because the directive is chosen by the test
    [language == "en"] and everything else gets Bengali.  So the system
    prompt sent for "fr" differs from the one sent for "en", and "fr" is not
    treated as "en". *)
Theorem chat_locale_fr (self : AIService) (msg : str)
    (conversation_history : list turn) (use_medical_mode : bool)
    (context : option dict) (log : list event) :
  (exists tail,
     call_system_prompt msg `"fr" use_medical_mode context
     = _get_system_prompt `"en" use_medical_mode ++ directive_bn ++ tail
     /\ chat_system_prompt `"en" use_medical_mode context
        = _get_system_prompt `"en" use_medical_mode ++ directive_en ++ tail)
  /\ call_system_prompt msg `"fr" use_medical_mode context
     <> chat_system_prompt `"en" use_medical_mode context
  /\ (exists d log',
        chat self msg `"fr" conversation_history use_medical_mode context log
        = (inr d, log')
        /\ language d = Some `"fr")
  /\ ~ treated_as_english `"fr".
Proof.
  assert (Hempty : `"fr" <> []) by discriminate.
  assert (Hauto : `"fr" <> `"auto") by discriminate.
  pose proof (resolve_language_explicit msg Hempty Hauto) as Hres.
  assert (Hsent : forall mode ctx,
            call_system_prompt msg `"fr" mode ctx
            <> chat_system_prompt `"en" mode ctx).
  { intros mode ctx. unfold call_system_prompt, chat_system_prompt.
    rewrite Hres.
    change (_get_system_prompt `"fr" mode) with (_get_system_prompt `"en" mode).
    change (str_eqb `"fr" `"en") with false.
    change (str_eqb `"en" `"en") with true. cbv iota.
    intros H. apply app_inv_head in H. vm_compute in H. discriminate H. }
  split; [|split; [|split]].
  - unfold call_system_prompt, chat_system_prompt. rewrite Hres.
    eexists. split; reflexivity.
  - apply Hsent.
  - destruct (chat_run self msg `"fr" conversation_history use_medical_mode
                context log) as [d [Hrun [Hlang _]]].
    exists d. eexists. split; [exact Hrun|]. rewrite Hlang, Hres.
    reflexivity.
  - intros H.
    destruct (H self msg conversation_history use_medical_mode context log)
      as [Hprompt _].
    exact (Hsent _ _ Hprompt).
Qed.

(** ** The matcher and its capture groups *)

Lemma has_group_cons (n m : nat) (t : str) (gs : list (nat * str)) :
  has_group n gs -> has_group n ((m, t) :: gs).
Proof.
  unfold has_group. simpl. intros H. destruct (Nat.eqb m n); [discriminate|].
  exact H.
Qed.

Lemma has_group_here (n : nat) (t : str) (gs : list (nat * str)) :
  has_group n ((n, t) :: gs).
Proof. unfold has_group. simpl. rewrite Nat.eqb_refl. discriminate. Qed.

(** A repetition of a class hands the groups on unchanged. *)
Lemma rep_groups {A} (p : char -> bool) (rs : str) :
  forall lo hi pv ps gs (k : mstate -> option A) res,
    rep p lo hi pv rs ps gs k = Some res ->
    exists st', k st' = Some res /\ groups st' = gs.
Proof.
  induction rs as [|c rs IH]; intros lo hi pv ps gs k res H.
  - simpl in H. destruct lo; [|discriminate]. eexists. split; [exact H|].
    reflexivity.
  - cbn [rep] in H.
    assert (Hstop : match lo with
                    | O => k {| prev := pv; rest := c :: rs; pos := ps;
                                groups := gs |}
                    | S _ => None
                    end = Some res ->
                    exists st', k st' = Some res /\ groups st' = gs).
    { destruct lo; [|discriminate]. intros Hk. eexists.
      split; [exact Hk | reflexivity]. }
    destruct (p c && room hi); [|auto].
    destruct (rep p (Nat.pred lo) (option_map Nat.pred hi) (Some c) rs
                (S ps) gs k) eqn:E; [|auto].
    inversion H; subst. eapply IH. exact E.
Qed.

(** Where a successful run hands over to its continuation, the groups
    captured before are still captured, and so is every group the pattern
    always captures. *)
Lemma run_groups {A} (r : regex) :
  forall st (k : mstate -> option A) res,
    run r st k = Some res ->
    exists st',
      k st' = Some res
      /\ (forall n, has_group n (groups st) -> has_group n (groups st'))
      /\ (forall n, sets_group n r = true -> has_group n (groups st')).
Proof.
  induction r as [|p|p lo hi|a IHa b IHb|a IHa b IHb|a IHa|m a IHa|];
    intros st k res H; cbn [run] in H.
  - exists st. repeat split; auto. discriminate.
  - destruct (rest st) as [|c rs]; [discriminate|].
    destruct (p c); [|discriminate].
    eexists. split; [exact H|]. split; [auto | discriminate].
  - apply rep_groups in H. destruct H as [st' [Hk Hg]].
    exists st'. rewrite Hg. split; [exact Hk|]. split; [auto | discriminate].
  - apply IHa in H. destruct H as [st1 [H [Hk1 Hs1]]].
    apply IHb in H. destruct H as [st2 [H [Hk2 Hs2]]].
    exists st2. split; [exact H|]. split; [auto|].
    intros n Hn. cbn [sets_group] in Hn. apply orb_true_iff in Hn.
    destruct Hn as [Hn | Hn]; auto.
  - destruct (run a st k) eqn:E.
    + inversion H; subst. apply IHa in E. destruct E as [st' [Hk [Hp Hs]]].
      exists st'. split; [exact Hk|]. split; [exact Hp|].
      intros n Hn. cbn [sets_group] in Hn. apply andb_true_iff in Hn.
      apply Hs, Hn.
    + apply IHb in H. destruct H as [st' [Hk [Hp Hs]]].
      exists st'. split; [exact Hk|]. split; [exact Hp|].
      intros n Hn. cbn [sets_group] in Hn. apply andb_true_iff in Hn.
      apply Hs, Hn.
  - destruct (run a st k) eqn:E.
    + inversion H; subst. apply IHa in E. destruct E as [st' [Hk [Hp _]]].
      exists st'. split; [exact Hk|]. split; [exact Hp | discriminate].
    + exists st. split; [exact H|]. split; [auto | discriminate].
  - apply IHa in H. destruct H as [st1 [Hk [Hp Hs]]].
    eexists. split; [exact Hk|]. cbn [set_group groups]. split.
    + intros n Hn. apply has_group_cons, Hp, Hn.
    + intros n Hn. cbn [sets_group] in Hn. apply orb_true_iff in Hn.
      destruct Hn as [Hn | Hn].
      * apply Nat.eqb_eq in Hn. subst. apply has_group_here.
      * apply has_group_cons, Hs, Hn.
  - destruct (at_boundary st); [|discriminate].
    exists st. split; [exact H|]. split; [auto | discriminate].
Qed.

Lemma match_at_group (r : regex) (n : nat) (pv : option char) (rs : str)
    (ps : nat) (m : rmatch) :
  sets_group n r = true -> match_at r pv rs ps = Some m ->
  has_group n (captured m).
Proof.
  intros Hn H. unfold match_at in H. apply run_groups in H.
  destruct H as [st' [Hk [_ Hs]]]. inversion Hk; subst. simpl.
  apply Hs, Hn.
Qed.

Lemma search_from_group (r : regex) (n : nat) (rs : str) :
  sets_group n r = true ->
  forall pv ps m, search_from r pv rs ps = Some m -> has_group n (captured m).
Proof.
  intros Hn. induction rs as [|c rs IH]; intros pv ps m H; cbn [search_from] in H.
  - destruct (match_at r pv [] ps) eqn:E; [|discriminate].
    inversion H; subst. eapply match_at_group; eauto.
  - destruct (match_at r pv (c :: rs) ps) eqn:E.
    + inversion H; subst. eapply match_at_group; eauto.
    + eapply IH. exact H.
Qed.

(** A group that lies on every path of the pattern took part in every
    match: [group(n)] is a string, not [None]. *)
Lemma search_group (r : regex) (n : nat) (text : str) (m : rmatch) :
  sets_group (S n) r = true -> search r text = Some m ->
  exists g, group m (S n) = Some g.
Proof.
  intros Hn H. unfold search in H. apply (search_from_group _ _ _ Hn) in H.
  unfold has_group in H. cbn [group].
  destruct (lookup_group (S n) (captured m)) as [g|]; [|contradiction].
  exists g. reflexivity.
Qed.

(** ** Prescriptions *)

Lemma patterns_capture_group1 :
  Forall (fun r => sets_group 1 r = true) patient_patterns /\
  Forall (fun r => sets_group 1 r = true) diagnosis_patterns.
Proof. split; repeat constructor. Qed.

Lemma extract_doctor_run (lines : list str) (d : prescription) :
  extract_doctor lines d
  = (inr tt,
     match first_line_match doctor_pattern lines with
     | Some m => set_doctor_name (strip (whole m)) d
     | None => d
     end).
Proof.
  induction lines as [|line lines IH]; [reflexivity|].
  cbn [extract_doctor first_line_match].
  destruct (search doctor_pattern line); [reflexivity | exact IH].
Qed.

Lemma extract_date_run (patterns : list regex) (text : str)
    (d : prescription) :
  extract_date patterns text d
  = (inr tt,
     match first_match patterns text with
     | Some m => set_date (whole m) d
     | None => d
     end).
Proof.
  induction patterns as [|pattern patterns IH]; [reflexivity|].
  cbn [extract_date first_match].
  destruct (search pattern text); [reflexivity | exact IH].
Qed.

(** The patient and diagnosis loops never reach [None.strip()]. *)
Lemma extract_labelled_run (patterns : list regex) (text : str)
    (store : str -> prescription -> prescription) (d : prescription) :
  Forall (fun r => sets_group 1 r = true) patterns ->
  extract_labelled patterns text store d
  = (inr tt,
     match label_rule patterns text with
     | Some v => store v d
     | None => d
     end).
Proof.
  unfold label_rule. induction 1 as [|pattern patterns Hp _ IH];
    [reflexivity|].
  cbn [extract_labelled first_match].
  destruct (search pattern text) as [m|] eqn:E; [|exact IH].
  destruct (@search_group pattern 0 text m Hp E) as [g Hg].
  rewrite Hg. reflexivity.
Qed.

Lemma extract_medications_run (lines : list str) (d : prescription) :
  extract_medications lines d
  = (inr tt,
     with_medications (map med_info (filter is_medication_line lines)) d).
Proof.
  revert d. induction lines as [|line lines IH]; intros d.
  - unfold with_medications. simpl. rewrite app_nil_r. destruct d; reflexivity.
  - cbn [extract_medications filter]. unfold px_bind.
    destruct (is_medication_line line); cbn [px_update px_ret].
    + rewrite IH. unfold with_medications, append_medication. simpl.
      rewrite <- app_assoc. reflexivity.
    + apply IH.
Qed.

Lemma parse_prescription_body_run (text : str) :
  parse_prescription_body text empty_prescription
  = (inr tt, prescription_by_rules text).
Proof.
  destruct patterns_capture_group1 as [Hpatient Hdiagnosis].
  unfold parse_prescription_body, px_bind.
  rewrite extract_doctor_run, extract_date_run.
  rewrite (@extract_labelled_run _ _ _ _ Hpatient).
  rewrite extract_medications_run.
  rewrite (@extract_labelled_run _ _ _ _ Hdiagnosis).
  unfold prescription_by_rules, doctor_rule, date_rule, patient_rule,
    diagnosis_rule, medication_rule.
  destruct (first_line_match doctor_pattern (split 10 text));
    destruct (first_match date_patterns text);
    destruct (label_rule patient_patterns text);
    destruct (label_rule diagnosis_patterns text); reflexivity.
Qed.

(** C5: prescription extraction returns a record for every text and its
    body never raises.  Each field is what its own rule finds in the text;
    a rule that finds nothing leaves its field empty and the other fields
    as their rules give them; a text on which every rule misses, such as
    "hello world" or the empty text, gives the record with no doctor, date,
    patient or diagnosis and no medication. *)
Theorem parse_prescription_never_fails :
  (forall text,
     parse_prescription_body text empty_prescription
     = (inr tt, _parse_prescription text))
  /\ (forall text, _parse_prescription text = prescription_by_rules text)
  /\ (forall text,
        doctor_rule text = None -> date_rule text = None ->
        patient_rule text = None -> medication_rule text = [] ->
        diagnosis_rule text = None ->
        _parse_prescription text = empty_prescription)
  /\ _parse_prescription `"hello world" = empty_prescription
  /\ _parse_prescription [] = empty_prescription.
Proof.
  assert (Hrules : forall text,
            _parse_prescription text = prescription_by_rules text).
  { intros text. unfold _parse_prescription.
    rewrite parse_prescription_body_run. reflexivity. }
  split; [|split; [exact Hrules|split; [|split]]].
  - intros text. rewrite Hrules. apply parse_prescription_body_run.
  - intros text Hdoc Hdate Hpat Hmed Hdiag. rewrite Hrules.
    unfold prescription_by_rules.
    rewrite Hdoc, Hdate, Hpat, Hmed, Hdiag. reflexivity.
  - vm_compute. reflexivity.
  - vm_compute. reflexivity.
Qed.

(** A prescription the rules read in full. *)
Example parse_prescription_sample :
  _parse_prescription
    (`"Dr. John Smith" ++ [10] ++ `"Date: 12/03/2024" ++ [10]
       ++ `"Patient: Jane Doe" ++ [10]
       ++ `"Tab Paracetamol 500mg 1-0-1 for 5 days" ++ [10]
       ++ `"Diagnosis: Viral fever")
  = {| doctor_name := Some `"Dr. John Smith"; hospital := None;
       date := Some `"12/03/2024";
       patient_name := Some (`"Jane Doe" ++ [10] ++ `"Tab Paracetamol");
       medications :=
         [{| med_name := `"Tab Paracetamol 500mg 1-0-1 for 5 days";
             dosage := Some `"500mg"; frequency := Some `"1-0-1";
             duration := Some `"5 days" |}];
       diagnosis := Some `"Viral fever"; instructions := None |}.
Proof. vm_compute. reflexivity. Qed.

(** * Further properties of the code *)

(** ** Substrings *)

Lemma substring_refl (s : str) : substring s s.
Proof. exists [], []. rewrite app_nil_r. reflexivity. Qed.

Lemma substring_trans (a b c : str) :
  substring a b -> substring b c -> substring a c.
Proof.
  intros [p1 [q1 ->]] [p2 [q2 ->]]. exists (p2 ++ p1), (q1 ++ q2).
  rewrite <- !app_assoc. reflexivity.
Qed.

Lemma substring_contains (a s : str) : substring a s <-> contains a s = true.
Proof. unfold substring. rewrite contains_spec. reflexivity. Qed.

Lemma dropwhile_suffix (p : char -> bool) (s : str) :
  exists pre, s = pre ++ dropwhile p s /\ forallb p pre = true.
Proof.
  induction s as [|c s [pre [IH Hp]]]; simpl.
  - exists []. auto.
  - destruct (p c) eqn:E.
    + exists (c :: pre). simpl. rewrite E, Hp. split; [f_equal; exact IH | reflexivity].
    + exists []. auto.
Qed.

Lemma rstrip_by_prefix (p : char -> bool) (s : str) :
  exists post, s = rstrip_by p s ++ post.
Proof.
  unfold rstrip_by. destruct (dropwhile_suffix p (rev s)) as [pre [H _]].
  exists (rev pre). rewrite <- rev_app_distr, <- H, rev_involutive.
  reflexivity.
Qed.

(** What [strip] returns occurs in its argument. *)
Lemma substring_strip (s : str) : substring (strip s) s.
Proof.
  unfold strip, lstrip_by.
  destruct (dropwhile_suffix isspace s) as [pre [H _]].
  destruct (rstrip_by_prefix isspace (dropwhile isspace s)) as [post H'].
  exists pre, post. rewrite <- H'. exact H.
Qed.

Lemma substring_join (sep : str) (parts : list str) (part : str) :
  In part parts -> substring part (join sep parts).
Proof.
  induction parts as [|p parts IH]; [intros []|].
  intros [-> | Hin].
  - destruct parts as [|p' parts]; cbn [join].
    + apply substring_refl.
    + exists [], (sep ++ join sep (p' :: parts)). reflexivity.
  - destruct parts as [|p' parts]; [destruct Hin|].
    destruct (IH Hin) as [a [b H]]. exists (p ++ sep ++ a), b.
    change (join sep (p :: p' :: parts))
      with (p ++ sep ++ join sep (p' :: parts)).
    rewrite H, <- !app_assoc. reflexivity.
Qed.

(** Every line of a text occurs in it. *)
Lemma substring_line (sep : char) (text line : str) :
  In line (split sep text) -> substring line text.
Proof.
  intros H. rewrite <- (join_split sep text).
  apply substring_join, H.
Qed.

Lemma app_cut (A : Type) (pre pre' a b : list A) :
  pre ++ a = pre' ++ b -> (length pre <= length pre')%nat ->
  exists mid, pre' = pre ++ mid /\ a = mid ++ b.
Proof.
  revert pre'. induction pre as [|x pre IH]; intros pre' H Hlen.
  - exists pre'. auto.
  - destruct pre' as [|y pre']; [simpl in Hlen; lia|].
    inversion H; subst. simpl in Hlen.
    destruct (IH pre' H2 ltac:(lia)) as [mid [-> ->]].
    exists mid. auto.
Qed.

(** ** The matcher never leaves the text *)

Lemma rep_span {A} (p : char -> bool) (rs : str) :
  forall lo hi pv ps gs (k : mstate -> option A) res,
    rep p lo hi pv rs ps gs k = Some res ->
    exists st' mid,
      k st' = Some res /\ groups st' = gs /\
      rs = mid ++ rest st' /\ pos st' = (ps + length mid)%nat.
Proof.
  induction rs as [|c rs IH]; intros lo hi pv ps gs k res H.
  - simpl in H. destruct lo; [|discriminate].
    eexists. exists []. split; [exact H|]. simpl. auto.
  - cbn [rep] in H.
    assert (Hstop : match lo with
                    | O => k {| prev := pv; rest := c :: rs; pos := ps;
                                groups := gs |}
                    | S _ => None
                    end = Some res ->
                    exists st' mid,
                      k st' = Some res /\ groups st' = gs /\
                      c :: rs = mid ++ rest st' /\
                      pos st' = (ps + length mid)%nat).
    { destruct lo; [|discriminate]. intros Hk. eexists. exists [].
      split; [exact Hk|]. simpl. auto. }
    destruct (p c && room hi); [|auto].
    destruct (rep p (Nat.pred lo) (option_map Nat.pred hi) (Some c) rs
                (S ps) gs k) eqn:E; [|auto].
    inversion H; subst.
    destruct (IH _ _ _ _ _ _ _ E) as [st' [mid [Hk [Hg [Hr Hp]]]]].
    exists st', (c :: mid). split; [exact Hk|]. split; [exact Hg|].
    split; [simpl; rewrite <- Hr; reflexivity | simpl; lia].
Qed.

Lemma in_text_advance (text : str) (st st' : mstate) (mid : str) :
  in_text text st -> groups st' = groups st ->
  rest st = mid ++ rest st' -> pos st' = (pos st + length mid)%nat ->
  in_text text st'.
Proof.
  intros [[pre [Ht Hl]] Hg] Hgs Hr Hp. split.
  - exists (pre ++ mid). rewrite <- app_assoc, <- Hr, length_app.
    split; [exact Ht | lia].
  - rewrite Hgs. exact Hg.
Qed.

(** A successful run hands over a state that still belongs to the text,
    at or after the cursor it started from. *)
Lemma run_in_text {A} (text : str) (r : regex) :
  forall st (k : mstate -> option A) res,
    in_text text st -> run r st k = Some res ->
    exists st',
      k st' = Some res /\ in_text text st' /\ (pos st <= pos st')%nat.
Proof.
  induction r as [|p|p lo hi|a IHa b IHb|a IHa b IHb|a IHa|m a IHa|];
    intros st k res Hin H; cbn [run] in H.
  - exists st. auto.
  - destruct (rest st) as [|c rs] eqn:Er; [discriminate|].
    destruct (p c); [|discriminate].
    eexists. split; [exact H|]. split; [|simpl; lia].
    apply (@in_text_advance text st _ [c]); auto. simpl. lia.
  - apply rep_span in H. destruct H as [st' [mid [Hk [Hg [Hr Hp]]]]].
    exists st'. split; [exact Hk|]. split; [|lia].
    apply (@in_text_advance text st st' mid); auto.
  - apply (IHa _ _ _ Hin) in H. destruct H as [st1 [H [Hin1 Hle1]]].
    apply (IHb _ _ _ Hin1) in H. destruct H as [st2 [H [Hin2 Hle2]]].
    exists st2. split; [exact H|]. split; [exact Hin2 | lia].
  - destruct (run a st k) eqn:E.
    + inversion H; subst. apply (IHa _ _ _ Hin E).
    + apply (IHb _ _ _ Hin H).
  - destruct (run a st k) eqn:E.
    + inversion H; subst. apply (IHa _ _ _ Hin E).
    + exists st. auto.
  - apply (IHa _ _ _ Hin) in H. destruct H as [st1 [Hk [Hin1 Hle]]].
    eexists. split; [exact Hk|]. split; [|simpl; exact Hle].
    destruct Hin as [[pre [Ht Hl]] Hg].
    destruct Hin1 as [[pre1 [Ht1 Hl1]] Hg1].
    split; [exists pre1; simpl; auto|].
    intros n g [Heq | Hn]; [|apply (Hg1 n g Hn)].
    inversion Heq; subst n g.
    assert (Hcut : pre ++ rest st = pre1 ++ rest st1) by congruence.
    destruct (app_cut _ _ _ _ Hcut ltac:(lia)) as [mid [Hp1 Hr]].
    rewrite Hr. assert (Hm : (pos st1 - pos st)%nat = length mid).
    { rewrite <- Hl, <- Hl1, Hp1, length_app. lia. }
    rewrite Hm, firstn_app, Nat.sub_diag, firstn_all. simpl.
    rewrite app_nil_r. exists pre, (rest st1).
    rewrite Ht at 1. rewrite Hr. reflexivity.
  - destruct (at_boundary st); [|discriminate]. exists st. auto.
Qed.

Lemma match_at_in_text (r : regex) (pv : option char) (pre rs : str)
    (m : rmatch) :
  match_at r pv rs (length pre) = Some m ->
  substring (whole m) (pre ++ rs) /\
  forall n g, In (n, g) (captured m) -> substring g (pre ++ rs).
Proof.
  intros H. unfold match_at in H.
  apply (@run_in_text _ (pre ++ rs)) in H.
  - destruct H as [st' [Hk [[[pre' [Ht Hl]] Hg] Hle]]].
    inversion Hk; subst m. simpl in *. split; [|exact Hg].
    rewrite <- Hl in Hle.
    destruct (app_cut _ _ _ _ Ht Hle) as [mid [Hp Hr]].
    rewrite Hr. assert (Hm : (pos st' - length pre)%nat = length mid).
    { rewrite <- Hl, Hp, length_app. lia. }
    rewrite Hm, firstn_app, Nat.sub_diag, firstn_all. simpl.
    rewrite app_nil_r. exists pre, (rest st'). reflexivity.
  - split; [exists pre; auto | intros n g []].
Qed.

Lemma search_from_in_text (r : regex) (rs : str) :
  forall pv pre m,
    search_from r pv rs (length pre) = Some m ->
    substring (whole m) (pre ++ rs) /\
    forall n g, In (n, g) (captured m) -> substring g (pre ++ rs).
Proof.
  induction rs as [|c rs IH]; intros pv pre m H; cbn [search_from] in H.
  - destruct (match_at r pv [] (length pre)) eqn:E; [|discriminate].
    inversion H; subst. apply (match_at_in_text _ _ _ _ E).
  - destruct (match_at r pv (c :: rs) (length pre)) eqn:E.
    + inversion H; subst. apply (match_at_in_text _ _ _ _ E).
    + specialize (IH (Some c) (pre ++ [c]) m).
      rewrite length_app, Nat.add_1_r, <- app_assoc in IH. apply IH, H.
Qed.

Lemma lookup_group_In (n : nat) (gs : list (nat * str)) (g : str) :
  lookup_group n gs = Some g -> In (n, g) gs.
Proof.
  induction gs as [|[m t] gs IH]; [discriminate|]. simpl.
  destruct (Nat.eqb m n) eqn:E.
  - apply Nat.eqb_eq in E. intros H. inversion H; subst. left. reflexivity.
  - intros H. right. apply IH, H.
Qed.

(** Whatever [re.search] reports, the whole match and each group, occurs
    in the text searched. *)
Lemma search_in_text (r : regex) (text : str) (m : rmatch) :
  search r text = Some m ->
  forall n g, group m n = Some g -> substring g text.
Proof.
  intros H n g Hg. unfold search in H.
  destruct (@search_from_in_text r text None [] m H) as [Hw Hc].
  destruct n as [|n]; simpl in Hg.
  - inversion Hg; subst. exact Hw.
  - apply (Hc (S n)), lookup_group_In, Hg.
Qed.

(** ** Prescriptions: the fields come from the text *)

Lemma parse_prescription_rules (text : str) :
  _parse_prescription text = prescription_by_rules text.
Proof.
  unfold _parse_prescription. rewrite parse_prescription_body_run.
  reflexivity.
Qed.

Lemma first_line_match_In (r : regex) (lines : list str) (m : rmatch) :
  first_line_match r lines = Some m ->
  exists line, In line lines /\ search r line = Some m.
Proof.
  induction lines as [|line lines IH]; [discriminate|]. simpl.
  destruct (search r line) eqn:E.
  - intros H. inversion H; subst. exists line. auto.
  - intros H. destruct (IH H) as [l [Hin Hs]]. exists l. auto.
Qed.

Lemma first_match_In (patterns : list regex) (text : str) (m : rmatch) :
  first_match patterns text = Some m ->
  exists pattern, In pattern patterns /\ search pattern text = Some m.
Proof.
  induction patterns as [|p patterns IH]; [discriminate|]. simpl.
  destruct (search p text) eqn:E.
  - intros H. inversion H; subst. exists p. auto.
  - intros H. destruct (IH H) as [q [Hin Hs]]. exists q. auto.
Qed.

Lemma first_group1_in_line (patterns : list regex) (line g : str) :
  first_group1 patterns line = Some g -> substring g line.
Proof.
  induction patterns as [|p patterns IH]; [discriminate|]. simpl.
  destruct (search p line) eqn:E; [|exact IH].
  intros H. apply (search_in_text _ _ E 1 H).
Qed.

Lemma label_rule_in_text (patterns : list regex) (text v : str) :
  label_rule patterns text = Some v -> substring v text.
Proof.
  unfold label_rule. destruct (first_match patterns text) as [m|] eqn:E;
    [|discriminate].
  destruct (first_match_In _ _ E) as [p [_ Hs]].
  destruct (group m 1) as [g|] eqn:Hg; [|discriminate].
  intros H. inversion H; subst.
  apply (substring_trans (substring_strip g)), (search_in_text _ _ Hs 1 Hg).
Qed.

(** Every header field of a parsed prescription is a piece of the text:
    the doctor's name, the date, the patient's name and the diagnosis each
    occur in it as they are returned. *)
Theorem prescription_fields_occur (text : str) :
  (forall v, doctor_name (_parse_prescription text) = Some v ->
             substring v text) /\
  (forall v, date (_parse_prescription text) = Some v -> substring v text) /\
  (forall v, patient_name (_parse_prescription text) = Some v ->
             substring v text) /\
  (forall v, diagnosis (_parse_prescription text) = Some v ->
             substring v text).
Proof.
  rewrite parse_prescription_rules. unfold prescription_by_rules. simpl.
  split; [|split; [|split]].
  - intros v. unfold doctor_rule.
    destruct (first_line_match doctor_pattern (split 10 text)) as [m|] eqn:E;
      [|discriminate].
    destruct (first_line_match_In _ _ E) as [line [Hin Hs]].
    intros H. inversion H; subst.
    apply (substring_trans (substring_strip (whole m))).
    apply (substring_trans (search_in_text _ _ Hs 0 eq_refl)).
    apply (substring_line _ _ _ Hin).
  - intros v. unfold date_rule.
    destruct (first_match date_patterns text) as [m|] eqn:E; [|discriminate].
    destruct (first_match_In _ _ E) as [p [_ Hs]].
    intros H. inversion H; subst. apply (search_in_text _ _ Hs 0 eq_refl).
  - intros v. apply label_rule_in_text.
  - intros v. apply label_rule_in_text.
Qed.

(** Every medication of a parsed prescription is a line of the text that
    holds a medication keyword: its name is that line trimmed, and its
    dosage, frequency and duration, when present, occur in that line.  The
    medications come in the order of their lines. *)
Theorem prescription_medications_from_lines (text : str) :
  Forall2
    (fun line m =>
       In line (split 10 text) /\ is_medication_line line = true /\
       med_name m = strip line /\
       (forall g, dosage m = Some g -> substring g line) /\
       (forall g, frequency m = Some g -> substring g line) /\
       (forall g, duration m = Some g -> substring g line))
    (filter is_medication_line (split 10 text))
    (medications (_parse_prescription text)).
Proof.
  rewrite parse_prescription_rules. unfold prescription_by_rules. simpl.
  unfold medication_rule.
  assert (G : forall lines,
            Forall2
              (fun line m =>
                 In line lines /\ is_medication_line line = true /\
                 med_name m = strip line /\
                 (forall g, dosage m = Some g -> substring g line) /\
                 (forall g, frequency m = Some g -> substring g line) /\
                 (forall g, duration m = Some g -> substring g line))
              (filter is_medication_line lines)
              (map med_info (filter is_medication_line lines))).
  { intros lines.
    assert (Hall : Forall (fun line => In line lines /\
                                       is_medication_line line = true)
                     (filter is_medication_line lines)).
    { apply Forall_forall. intros line H. apply filter_In in H. exact H. }
    induction Hall as [|line ls [Hin Hmed] _ IH]; simpl; constructor;
      [|exact IH].
    split; [exact Hin|]. split; [exact Hmed|]. split; [reflexivity|].
    unfold med_info. cbn [dosage frequency duration]. split; [|split].
    - destruct (search dosage_pattern line) eqn:E; [|discriminate].
      intros g H. apply (search_in_text _ _ E 1 H).
    - intros g. apply first_group1_in_line.
    - destruct (search duration_pattern line) eqn:E; [|discriminate].
      intros g H. apply (search_in_text _ _ E 1 H). }
  apply G.
Qed.

(** ** Lists cut short *)

Lemma Forall_firstn (A : Type) (P : A -> Prop) (n : nat) (l : list A) :
  Forall P l -> Forall P (firstn n l).
Proof.
  intros H. revert n. induction H as [|x l Hx _ IH]; intros [|n]; simpl;
    constructor; auto.
Qed.

(** No element of a concrete list is the given one. *)
Ltac not_among :=
  let H := fresh in
  intros H; simpl in H;
  repeat (destruct H as [H | H]; [discriminate H|]); exact H.

Lemma firstn_In (A : Type) (n : nat) (l : list A) (x : A) :
  In x (firstn n l) -> In x l.
Proof.
  revert n. induction l as [|y l IH]; intros [|n]; simpl;
    try (intros H; exact H); try (intros H; destruct H; fail).
  intros [H | H]; [left; exact H | right; apply (IH n), H].
Qed.

Lemma firstn_not_nil (A : Type) (n : nat) (l : list A) :
  l <> [] -> (1 <= length (firstn (S n) l))%nat.
Proof. destruct l; [congruence | simpl; lia]. Qed.

Lemma substring_not_In (c : char) (a s : str) :
  substring a s -> ~ In c s -> ~ In c a.
Proof.
  intros [pre [post ->]] H Hin. apply H.
  apply in_or_app. right. apply in_or_app. left. exact Hin.
Qed.

Lemma dropwhile_head (p : char -> bool) (s : str) (c : char) (s' : str) :
  dropwhile p s = c :: s' -> p c = false.
Proof.
  induction s as [|x s IH]; [discriminate|]. simpl.
  destruct (p x) eqn:E; [exact IH|]. intros H. inversion H; subst. exact E.
Qed.

(** ** Recommendations: what every entry looks like *)

Lemma collect_recommendations_clean (lines : list str) :
  Forall (fun line => ~ In 10 line) lines ->
  Forall clean_entry (collect_recommendations lines).
Proof.
  induction 1 as [|line lines Hline _ IH]; simpl; [constructor|].
  destruct (is_list_item (strip line)); [|exact IH].
  destruct (lstrip enumerator_chars (strip line)) as [|c r] eqn:E;
    [exact IH|].
  constructor; [|exact IH]. split; [discriminate|]. split.
  - apply (@substring_not_In 10 _ line); [|exact Hline].
    rewrite <- E. apply (@substring_trans _ (strip line));
      [|apply substring_strip].
    unfold lstrip, lstrip_by.
    destruct (dropwhile_suffix (fun c => mem c enumerator_chars)
                (strip line)) as [pre [Hs _]].
    exists pre, []. rewrite app_nil_r. exact Hs.
  - intros c' r' Heq. inversion Heq; subst.
    apply (dropwhile_head _ _ E).
Qed.

(** The recommendations parser returns between one and five entries,
    never an empty list; every entry is non-empty, holds no line feed and
    does not begin with one of the characters the parser strips: 0-9, the
    dot, the dash, the bullet and the space. *)
Theorem recommendations_clean (text : str) :
  (1 <= length (_extract_recommendations text) <= 5)%nat /\
  Forall clean_entry (_extract_recommendations text).
Proof using Type.
  unfold _extract_recommendations.
  pose proof (collect_recommendations_clean (split_fields 10 text)) as Hc.
  destruct (collect_recommendations (split 10 text)) as [|e es].
  - split; [simpl; lia|].
    repeat constructor; try discriminate;
      try (intros c r' Heq; inversion Heq; subst; vm_compute; reflexivity);
      not_among.
  - split; [|apply Forall_firstn, Hc].
    split; [apply firstn_not_nil; discriminate | apply firstn_le_length].
Qed.

(** ** Lab reports: what every row looks like *)

(** A test name never holds a colon, and neither the name nor the result
    holds a line feed: a row never runs over the line it came from. *)
Theorem lab_rows_within_line (text : str) :
  Forall (fun row => ~ In 58 (test_name row) /\ ~ In 10 (test_name row) /\
                     ~ In 10 (test_result row))
    (tests (_parse_lab_report text)).
Proof.
  unfold _parse_lab_report. cbn [tests].
  pose proof (split_fields 10 text) as Hlines.
  pose proof (lab_rows_spec (split 10 text)) as Hrows.
  assert (Hf : Forall (fun line => ~ In 10 line)
                 (filter (fun line => mem 58 line) (split 10 text))).
  { apply Forall_forall. intros line H. apply filter_In in H.
    rewrite Forall_forall in Hlines. apply Hlines, H. }
  induction Hrows as [|line row ls rows [a [b [Hl [Ha ->]]]] _ IH];
    [constructor|].
  inversion Hf; subst. constructor; [|apply IH; assumption].
  cbn [test_name test_result].
  assert (Ha10 : ~ In 10 a).
  { intros Hin. apply H1. apply in_or_app. left. exact Hin. }
  assert (Hb10 : ~ In 10 b).
  { intros Hin. apply H1. apply in_or_app. right. right. exact Hin. }
  split; [|split]; eapply substring_not_In; eauto using substring_strip.
Qed.

(** ** The two language detectors *)

(** Whenever the service's detector answers "bn", so does the helper the
    chat route uses: the helper is the more eager of the two. *)
Theorem service_bn_implies_helper_bn (text : str) :
  _detect_language text = `"bn" -> detect_language text = `"bn".
Proof.
  rewrite _detect_language_cases, detect_language_cases.
  destruct (counted_count text <? 5 * bengali_count text) eqn:E;
    [|discriminate].
  intros _. apply N.ltb_lt in E.
  destruct (existsb is_bengali text) eqn:Ex; [reflexivity|].
  assert (H0 : bengali_count text = 0).
  { apply count_if_zero. intros c Hc.
    destruct (is_bengali c) eqn:Ec; [|reflexivity].
    assert (Hex : existsb is_bengali text = true)
      by (apply existsb_exists; exists c; auto).
    congruence. }
  rewrite H0 in E. lia.
Qed.

(** Spaces and line feeds never change what the service's detector
    answers, wherever they are put into the text. *)
Theorem detect_language_ignores_blanks (before after : str) (c : char) :
  c = 32 \/ c = 10 ->
  _detect_language (before ++ c :: after) = _detect_language (before ++ after).
Proof.
  intros Hc. rewrite !_detect_language_cases.
  assert (Hcount : forall p, p c = false ->
            count_if p (before ++ c :: after) = count_if p (before ++ after)).
  { intros p Hp. unfold count_if. rewrite !filter_app. simpl. rewrite Hp.
    reflexivity. }
  unfold counted_count, bengali_count.
  rewrite !Hcount; [reflexivity | |]; destruct Hc; subst; reflexivity.
Qed.

(** ** The chat orchestrator: requests and results *)

Lemma call_system_prompt_not_empty (msg lang : str) (use_medical_mode : bool)
    (context : option dict) :
  exists c rest,
    call_system_prompt msg lang use_medical_mode context = c :: rest.
Proof.
  unfold call_system_prompt, chat_system_prompt, _get_system_prompt.
  destruct (negb use_medical_mode);
    [|destruct (str_eqb (resolve_language lang msg) `"bn")];
    eexists; eexists; reflexivity.
Qed.

(** Both providers are sent the same system prompt and the user's message
    last: the primary as a system turn, the history, then the user turn; the
    secondary as one text that opens with the prompt and ends with the
    message and the cue "Assistant:". *)
Theorem chat_requests_shape (msg lang : str)
    (conversation_history : list turn) (use_medical_mode : bool)
    (context : option dict) :
  primary_request msg lang conversation_history use_medical_mode context
  = {| role := `"system";
       content := call_system_prompt msg lang use_medical_mode context |}
    :: conversation_history ++ [{| role := `"user"; content := msg |}]
  /\ secondary_request msg lang conversation_history use_medical_mode context
     = call_system_prompt msg lang use_medical_mode context ++ [10; 10]
       ++ concat (map transcript_line conversation_history)
       ++ `"User: " ++ msg ++ [10] ++ `"Assistant:".
Proof.
  unfold primary_request, secondary_request, groq_messages,
    gemini_full_prompt.
  destruct (call_system_prompt_not_empty msg lang use_medical_mode context)
    as [c [rest ->]].
  split; [reflexivity|]. rewrite <- app_assoc. reflexivity.
Qed.

(** A run of [chat] whose primary provider answers makes that one call and
    no other, and returns the provider's text under the primary's model
    name. *)
Theorem chat_primary_success (self : AIService) (msg lang : str)
    (conversation_history : list turn) (use_medical_mode : bool)
    (context : option dict) (log : list event) (r : groq_reply) :
  primary_outcome self msg lang conversation_history use_medical_mode context
  = Some (inr r) ->
  exists d,
    chat self msg lang conversation_history use_medical_mode context log
    = (inr d,
       log ++ [GroqCall default_groq_model
                 (primary_request msg lang conversation_history
                    use_medical_mode context)])
    /\ success d = true
    /\ message d = Some (reply_content r)
    /\ model_used d = Some default_groq_model.
Proof.
  intros Hp.
  destruct (chat_run self msg lang conversation_history use_medical_mode
              context log) as [d [Hrun [_ [Hok Hko]]]].
  exists d. unfold expected_calls in Hrun. rewrite Hp in Hrun.
  split; [exact Hrun|].
  destruct (success d) eqn:Hd.
  - split; [reflexivity|].
    destruct (Hok eq_refl) as [[r' [Hr' [Hm Ht]]] | [Hn _]].
    + rewrite Hp in Hr'. inversion Hr'; subst. auto.
    + contradiction Hn. exists r. exact Hp.
  - destruct (Hko eq_refl) as [Hn _]. contradiction Hn. exists r. exact Hp.
Qed.

(** The result of [chat] is one of two shapes: a success with a text and a
    model name and no error, or a failure with neither and the fixed error
    text; what the providers reported when they failed is not in it. *)
Theorem chat_result_shape (self : AIService) (msg lang : str)
    (conversation_history : list turn) (use_medical_mode : bool)
    (context : option dict) (log : list event) :
  exists d log',
    chat self msg lang conversation_history use_medical_mode context log
    = (inr d, log')
    /\ ((success d = true /\ (exists text, message d = Some text) /\
         (exists model, model_used d = Some model) /\ error d = None)
        \/ (success d = false /\ message d = None /\ model_used d = None /\
            usage d = None /\
            error d = Some `"All AI services are unavailable")).
Proof.
  unfold chat, chat_with_groq, chat_with_gemini, io_bind, emit, io_ret.
  destruct (groq_client self) as [client|];
    [destruct (client default_groq_model _) as [e|r]; cbn [success failed]|];
    try (destruct (gemini_model self) as [model|];
         [destruct (model _) as [e'|text]; cbn [success failed]|]);
    eexists; eexists; (split; [reflexivity|]); cbn;
    first [ left; repeat split; eauto; fail
          | right; repeat split; eauto; fail ].
Qed.

(** ** Integers as decimal text and back *)

Lemma pos_lt_pow2_size (p : positive) :
  N.pos p < 2 ^ N.of_nat (Pos.size_nat p).
Proof.
  induction p as [p IH|p IH|]; cbn [Pos.size_nat];
    rewrite ?Nat2N.inj_succ, ?N.pow_succ_r'; lia.
Qed.

Lemma N_lt_pow2_size (n : N) : n < 2 ^ N.of_nat (S (N.size_nat n)).
Proof.
  rewrite Nat2N.inj_succ, N.pow_succ_r'. destruct n as [|p]; simpl N.size_nat.
  - simpl. lia.
  - pose proof (pos_lt_pow2_size p). lia.
Qed.

Lemma ascii_isdigit_digit (n : N) :
  ascii_isdigit (48 + n mod 10) = true /\ 48 + n mod 10 - 48 = n mod 10.
Proof.
  pose proof (N.mod_upper_bound n 10 ltac:(lia)) as H.
  unfold ascii_isdigit. split; [|rewrite N.add_comm; apply N.add_sub].
  set (m := n mod 10) in *. clearbody m.
  apply andb_true_iff. split; apply N.leb_le; lia.
Qed.

Lemma digits_of_S (fuel : nat) (n : N) (acc : str) :
  digits_of (S fuel) n acc
  = if n / 10 =? 0 then (48 + n mod 10) :: acc
    else digits_of fuel (n / 10) ((48 + n mod 10) :: acc).
Proof. reflexivity. Qed.

(** Reading the digits [digits_of] writes gives the number back. *)
Lemma int_digits_digits_of (fuel : nat) :
  forall n acc prev_digit,
    n < 2 ^ N.of_nat (S fuel) ->
    int_digits (digits_of (S fuel) n acc) prev_digit 0
    = int_digits acc true (Z.of_N n).
Proof.
  induction fuel as [|fuel IH]; intros n acc prev_digit Hn;
    rewrite digits_of_S; destruct (ascii_isdigit_digit n) as [Hd Hv].
  - assert (E : n / 10 = 0) by (apply N.div_small; simpl in Hn; lia).
    rewrite E. cbn [N.eqb int_digits]. rewrite Hd, Hv.
    rewrite N.mod_small by (simpl in Hn; lia). reflexivity.
  - destruct (n / 10 =? 0) eqn:E.
    + apply N.eqb_eq in E. cbn [int_digits]. rewrite Hd, Hv.
      rewrite N.mod_small by (apply N.div_small_iff; lia). reflexivity.
    + rewrite IH.
      * cbn [int_digits]. rewrite Hd, Hv. f_equal.
        rewrite (N.div_mod n 10) at 3 by lia. lia.
      * rewrite Nat2N.inj_succ, N.pow_succ_r' in Hn.
        apply N.Div0.div_lt_upper_bound; lia.
Qed.

Lemma digits_of_digits (fuel : nat) :
  forall n acc,
    forallb ascii_isdigit acc = true ->
    forallb ascii_isdigit (digits_of fuel n acc) = true.
Proof.
  induction fuel as [|fuel IH]; intros n acc Hacc;
    [exact Hacc | rewrite digits_of_S].
  destruct (ascii_isdigit_digit n) as [Hd _].
  destruct (n / 10 =? 0); [|apply IH]; cbn [forallb]; rewrite Hd, Hacc;
    reflexivity.
Qed.

Lemma digits_of_not_nil (fuel : nat) (n : N) (acc : str) :
  digits_of (S fuel) n acc <> [].
Proof.
  revert n acc. induction fuel as [|fuel IH]; intros n acc;
    rewrite digits_of_S.
  - destruct (n / 10 =? 0); discriminate.
  - destruct (n / 10 =? 0); [discriminate | apply IH].
Qed.

Lemma dropwhile_none (p : char -> bool) (s : str) :
  forallb (fun c => negb (p c)) s = true -> dropwhile p s = s.
Proof.
  destruct s as [|c s]; [reflexivity|]. simpl. intros H.
  apply andb_true_iff in H. destruct H as [H _].
  apply negb_true_iff in H. rewrite H. reflexivity.
Qed.

Lemma forallb_impl (p q : char -> bool) (s : str) :
  (forall c, p c = true -> q c = true) ->
  forallb p s = true -> forallb q s = true.
Proof.
  intros H. rewrite !forallb_forall. intros Hp c Hc. apply H, Hp, Hc.
Qed.

Lemma digit_facts (c : char) :
  ascii_isdigit c = true ->
  is_ascii c = true /\ c_isspace c = false /\ c <> 43 /\ c <> 45 /\ c <> 47.
Proof.
  unfold ascii_isdigit, is_ascii, c_isspace. intros H.
  apply andb_true_iff in H. destruct H as [H1 H2].
  apply N.leb_le in H1. apply N.leb_le in H2.
  split; [apply N.ltb_lt; lia|]. split; [|lia].
  apply orb_false_iff. split; [apply andb_false_iff; right|];
    [apply N.leb_gt | apply N.eqb_neq]; lia.
Qed.

Lemma filter_all (p : char -> bool) (s : str) :
  forallb p s = true -> filter p s = s.
Proof.
  induction s as [|c s IH]; simpl; [reflexivity|]. intros H.
  apply andb_true_iff in H. destruct H as [Hc Hs].
  rewrite Hc, (IH Hs). reflexivity.
Qed.

(** [int(str(n))] is [n] for every natural number [n] whose decimal form
    is within the digit limit, and a [ValueError] beyond it. *)
Lemma py_int_str_of_N (n : N) :
  py_int (str_of_N n) =
  if exceeds_digit_limit (N.of_nat (length (str_of_N n)))
  then inl (ValueError (str_of_N n))
  else inr (Z.of_N n).
Proof.
  unfold py_int, str_of_N.
  pose proof (@digits_of_digits (S (N.size_nat n)) n [] eq_refl) as Hd.
  pose proof (@digits_of_not_nil (N.size_nat n) n []) as Hne.
  pose proof (@int_digits_digits_of (N.size_nat n) n [] false
                (N_lt_pow2_size n)) as Hint.
  set (s := digits_of (S (N.size_nat n)) n []) in *.
  assert (Hascii : all_ascii s = true).
  { apply (forallb_impl ascii_isdigit); [|exact Hd].
    intros c Hc. apply digit_facts, Hc. }
  assert (Hns : forall t, forallb ascii_isdigit t = true ->
                forallb (fun c => negb (c_isspace c)) t = true).
  { intros t. apply forallb_impl. intros c Hc.
    destruct (digit_facts c Hc) as [_ [-> _]]. reflexivity. }
  unfold transform_decimal_and_space. rewrite Hascii.
  unfold lstrip_by, rstrip_by. rewrite (dropwhile_none _ _ (Hns s Hd)).
  rewrite dropwhile_none, rev_involutive.
  - rewrite (filter_all _ _ Hd).
    destruct s as [|c s']; [congruence|].
    simpl in Hd. apply andb_true_iff in Hd. destruct Hd as [Hc _].
    destruct (digit_facts c Hc) as [_ [_ [H43 [H45 _]]]].
    destruct c as [|p]; [rewrite Hint; reflexivity|].
    do 6 (destruct p as [p|p|]; try (rewrite Hint; reflexivity));
      congruence.
  - apply Hns. rewrite forallb_forall in *. intros c Hc.
    apply Hd, in_rev, Hc.
Qed.

Lemma split_hd (sep : char) (a b : str) :
  ~ In sep a -> hd [] (split sep (a ++ sep :: b)) = a.
Proof.
  induction a as [|c a IH]; intros Hn; simpl.
  - unfold chr_eqb. rewrite N.eqb_refl. reflexivity.
  - assert (Hc : chr_eqb c sep = false).
    { apply N.eqb_neq. intros ->. apply Hn. left. reflexivity. }
    rewrite Hc. specialize (IH (fun H => Hn (or_intror H))).
    pose proof (split_not_nil sep (a ++ sep :: b)) as Hs.
    destruct (split sep (a ++ sep :: b)); [contradiction|].
    simpl in *. rewrite IH. reflexivity.
Qed.

(** ** Risk factors: when the extraction raises and what the numeric
    rules report *)

(** The extraction raises only through the blood-pressure rule: exactly
    when the metrics are non-empty, their blood pressure is truthy, its text
    has a slash and [int()] raises on what stands before the slash, which
    is then not an integer literal or has more digits than [int()] accepts;
    the exception is the one [int()] raised. *)
Theorem extract_risk_factors_raises_iff (health_metrics : option dict)
    (medical_history : option (list str)) (lifestyle_factors : option dict)
    (e : exn) :
  _extract_risk_factors health_metrics medical_history lifestyle_factors
  = inl e
  <-> exists metrics,
        health_metrics = Some metrics /\ metrics <> [] /\
        truthy (get metrics `"blood_pressure") = true /\
        contains `"/" (py_str (get metrics `"blood_pressure")) = true /\
        py_int (hd [] (split 47 (py_str (get metrics `"blood_pressure"))))
        = inl e.
Proof.
  unfold _extract_risk_factors.
  destruct health_metrics as [[|entry metrics]|]; cbn [bind].
  - split; [discriminate | intros [m [H [Hne _]]]].
    inversion H; subst. contradiction.
  - unfold blood_pressure_factors.
    set (bp := get (entry :: metrics) `"blood_pressure").
    destruct (truthy bp) eqn:Ht; cbn [andb].
    + destruct (contains `"/" (py_str bp)) eqn:Hc.
      * destruct (py_int (hd [] (split 47 (py_str bp)))) as [e'|z] eqn:Hi;
          cbn [bind].
        -- split.
           ++ intros H. inversion H; subst. exists (entry :: metrics).
              repeat split; auto. discriminate.
           ++ intros [m [H [_ [_ [_ Hi']]]]]. inversion H; subst m.
              fold bp in Hi'. congruence.
        -- split.
           ++ destruct (140 <? z)%Z; discriminate.
           ++ intros [m [H [_ [_ [_ Hi']]]]]. inversion H; subst m.
              fold bp in Hi'. congruence.
      * split; [discriminate|].
        intros [m [H [_ [_ [Hc' _]]]]]. inversion H; subst m.
        fold bp in Hc'. congruence.
    + split; [discriminate|].
      intros [m [H [_ [Ht' _]]]]. inversion H; subst m.
      fold bp in Ht'. congruence.
  - split; [discriminate | intros [m [H _]]; discriminate].
Qed.

(** A blood pressure written as a natural number in decimal, a slash and
    anything after it.  While the number has no more digits than [int()]
    accepts, it is read without an exception and "High Blood Pressure" is
    reported exactly when it is above 140; with more digits than that,
    [int()] raises and the [ValueError] leaves the function. *)
Theorem blood_pressure_decimal_rule (systolic : N) (diastolic : str) :
  _extract_risk_factors
    (Some [(`"blood_pressure", VStr (str_of_N systolic ++ 47 :: diastolic))])
    None None
  = if exceeds_digit_limit (N.of_nat (length (str_of_N systolic)))
    then inl (ValueError (str_of_N systolic))
    else inr (if 140 <? systolic
              then [{| factor := `"High Blood Pressure"; impact := `"high" |}]
              else []).
Proof.
  assert (Hno : ~ In 47 (str_of_N systolic)).
  { unfold str_of_N.
    pose proof (@digits_of_digits (S (N.size_nat systolic)) systolic []
                  eq_refl) as Hd.
    rewrite forallb_forall in Hd. intros Hin.
    destruct (digit_facts 47 (Hd _ Hin)) as [_ [_ [_ [_ H]]]]. congruence. }
  unfold _extract_risk_factors, blood_pressure_factors.
  cbv beta iota. cbn [get]. rewrite str_eqb_refl. cbn [truthy py_str].
  assert (Hne : str_eqb (str_of_N systolic ++ 47 :: diastolic) [] = false).
  { apply str_eqb_neq. destruct (str_of_N systolic); discriminate. }
  rewrite Hne.
  assert (Hc : contains `"/" (str_of_N systolic ++ 47 :: diastolic) = true).
  { change (`"/") with [47 : char].
    apply contains_char, in_or_app. right. left. reflexivity. }
  rewrite Hc. cbn [negb andb].
  pose proof (@split_hd 47 _ diastolic Hno) as Hhd. unfold char in *.
  rewrite Hhd, py_int_str_of_N.
  unfold char in *.
  match goal with
  | |- context [exceeds_digit_limit ?digits] =>
      destruct (exceeds_digit_limit digits); [reflexivity|]
  end.
  cbn [bind]. unfold bmi_factors. cbn [get].
  assert (Hk : str_eqb `"blood_pressure" `"bmi" = false) by reflexivity.
  rewrite Hk. cbn [truthy].
  replace (140 <? Z.of_N systolic)%Z with (140 <? systolic).
  - destruct (140 <? systolic); reflexivity.
  - destruct (140 <? systolic) eqn:E; symmetry.
    + apply N.ltb_lt in E. apply Z.ltb_lt. lia.
    + apply N.ltb_ge in E. apply Z.ltb_ge. lia.
Qed.

(** The BMI rule: for an integer BMI, "High BMI (Obesity)" above 30,
    "Overweight" above 25 and up to 30, nothing otherwise; a BMI passed as
    text is not looked at, whatever the text. *)
Theorem bmi_rule :
  (forall z : Z,
     _extract_risk_factors (Some [(`"bmi", VInt z)]) None None
     = inr (if (30 <? z)%Z
            then [{| factor := `"High BMI (Obesity)"; impact := `"high" |}]
            else if (25 <? z)%Z
            then [{| factor := `"Overweight"; impact := `"medium" |}]
            else []))
  /\ (forall s : str,
        _extract_risk_factors (Some [(`"bmi", VStr s)]) None None = inr []).
Proof.
  split.
  - intros z. unfold _extract_risk_factors, blood_pressure_factors,
      bmi_factors. cbv beta iota. cbn [get].
    assert (Hk : str_eqb `"bmi" `"blood_pressure" = false) by reflexivity.
    rewrite Hk, str_eqb_refl. cbn [truthy andb bind num_gt].
    destruct (z =? 0)%Z eqn:E; cbn [negb].
    + apply Z.eqb_eq in E. subst z. reflexivity.
    + destruct (30 <? z)%Z eqn:E30; [reflexivity|].
      destruct (25 <? z)%Z; reflexivity.
  - intros s. unfold _extract_risk_factors, blood_pressure_factors,
      bmi_factors. cbv beta iota. cbn [get].
    assert (Hk : str_eqb `"bmi" `"blood_pressure" = false) by reflexivity.
    rewrite Hk, str_eqb_refl. cbn [truthy andb bind num_gt].
    destruct (negb (str_eqb s [])); reflexivity.
Qed.

(** ** Urgent care against the risk level *)

Lemma lower_from_ascii (s : str) :
  forall before, all_ascii s = true -> lower_from before s = map ascii_lower s.
Proof.
  induction s as [|c s IH]; intros before H; [reflexivity|].
  unfold all_ascii in H. simpl in H. apply andb_true_iff in H.
  destruct H as [Hc Hs]. cbn [lower_from map]. rewrite Hc.
  simpl. f_equal. apply IH, Hs.
Qed.

Lemma all_ascii_app (a b : str) :
  all_ascii (a ++ b) = all_ascii a && all_ascii b.
Proof. unfold all_ascii. apply forallb_app. Qed.

Lemma join_space_ascii (parts : list str) :
  forallb all_ascii parts = true ->
  all_ascii (join `" " parts) = true /\
  map ascii_lower (join `" " parts) = join `" " (map (map ascii_lower) parts).
Proof.
  induction parts as [|p parts IH]; [auto|].
  intros H. simpl in H. apply andb_true_iff in H. destruct H as [Hp Hs].
  destruct (IH Hs) as [IH1 IH2].
  destruct parts as [|q parts]; [auto|].
  change (join `" " (p :: q :: parts))
    with (p ++ `" " ++ join `" " (q :: parts)).
  change (join `" " (map (map ascii_lower) (p :: q :: parts)))
    with (map ascii_lower p ++ `" "
            ++ join `" " (map (map ascii_lower) (q :: parts))).
  rewrite !all_ascii_app, Hp, IH1, !map_app, IH2. auto.
Qed.

(** For ASCII symptoms the two functions look at the same text: lowering
    the joined symptoms is joining the lowered ones. *)
Lemma lower_join_ascii (symptoms : list str) :
  forallb all_ascii symptoms = true ->
  lower (join `" " symptoms) = join `" " (map lower symptoms).
Proof.
  intros H. destruct (join_space_ascii symptoms H) as [Ha Hm].
  unfold lower. rewrite (lower_from_ascii _ [] Ha), Hm. f_equal.
  apply map_ext_in. intros s Hs. symmetry. apply lower_from_ascii.
  rewrite forallb_forall in H. apply H, Hs.
Qed.

Lemma contains_trans (a b c : str) :
  contains a b = true -> contains b c = true -> contains a c = true.
Proof.
  rewrite <- !substring_contains. apply substring_trans.
Qed.

(** A high risk level does not always come with urgent care.  For ASCII
    symptoms, when the level is "high" and yet urgent care is not flagged,
    the symptoms mention "loss of consciousness": it is the one emergency
    phrase that none of the urgent-care keywords matches. *)
Theorem high_risk_without_urgent_care (symptoms : list str)
    (severity : option str) :
  forallb all_ascii symptoms = true ->
  _determine_risk_level symptoms severity = `"high" ->
  _check_urgent_care symptoms severity = false ->
  contains `"loss of consciousness" (join `" " (map lower symptoms)) = true.
Proof.
  intros Hascii Hhigh Hurgent.
  unfold _check_urgent_care in Hurgent. rewrite (lower_join_ascii _ Hascii) in Hurgent.
  apply orb_false_iff in Hurgent. destruct Hurgent as [Hkw Hsev].
  unfold _determine_risk_level in Hhigh. rewrite Hsev in Hhigh.
  set (text := join `" " (map lower symptoms)) in *.
  destruct (existsb (fun em => contains em text) emergency_symptoms) eqn:He.
  - apply existsb_exists in He. destruct He as [em [Hin Hem]].
    assert (Hno : forall keyword,
              In keyword emergency_keywords ->
              contains keyword em = true -> False).
    { intros keyword Hk Hc.
      assert (Hx : existsb (fun keyword => contains keyword text)
                     emergency_keywords = true).
      { apply existsb_exists. exists keyword. split; [exact Hk|].
        apply (contains_trans _ _ _ Hc Hem). }
      congruence. }
    simpl in Hin.
    destruct Hin as [<-|[<-|[<-|[<-|[<-|[<-|[]]]]]]]; try exact Hem;
      exfalso.
    + apply (Hno `"chest pain"); [simpl; auto | reflexivity].
    + apply (Hno `"difficulty breathing"); [simpl; auto | reflexivity].
    + apply (Hno `"severe"); [simpl; auto | reflexivity].
    + apply (Hno `"seizure"); [simpl; auto 10 | reflexivity].
    + apply (Hno `"stroke"); [simpl; auto 10 | reflexivity].
  - destruct (opt_str_eqb severity `"moderate" || (3 <? length symptoms)%nat);
      discriminate Hhigh.
Qed.

(** ** Conditions and predictions found in a text *)

Lemma keyword_hits_filter (keywords : list str) (text_lower : str) :
  keyword_hits keywords text_lower
  = filter (fun keyword => contains keyword text_lower) keywords.
Proof.
  induction keywords as [|k ks IH]; [reflexivity|]. simpl.
  destruct (contains k text_lower); rewrite IH; reflexivity.
Qed.

Lemma firstn_app_In (A : Type) (n : nat) (a b : list A) (x : A) :
  ~ In x a ->
  (In x (firstn n (a ++ x :: b)) <-> (length a < n)%nat).
Proof.
  revert n. induction a as [|y a IH]; intros n Hx.
  - destruct n; simpl; [split; [intros [] | lia]|].
    split; [lia | auto].
  - destruct n; simpl; [split; [intros [] | lia]|].
    assert (Hxa : ~ In x a) by (intros H; apply Hx; right; exact H).
    rewrite (IH n Hxa). split.
    + intros [H | H]; [subst; contradiction Hx; left; reflexivity | lia].
    + intros H. right. lia.
Qed.

(** With a cap of [n], the keyword [k] of a duplicate-free vocabulary is
    among the hits kept exactly when it occurs in the text and fewer than
    [n] keywords listed before it occur too. *)
Lemma capped_hits (n : nat) (before after : list str) (k text_lower : str) :
  NoDup (before ++ k :: after) ->
  In k (firstn n (keyword_hits (before ++ k :: after) text_lower))
  <-> contains k text_lower = true /\
      (length (keyword_hits before text_lower) < n)%nat.
Proof.
  intros Hnd. rewrite !keyword_hits_filter, filter_app. cbn [filter].
  assert (Hk : ~ In k (filter (fun kw => contains kw text_lower) before)).
  { intros H. apply filter_In in H. destruct H as [H _].
    apply NoDup_remove_2 in Hnd. apply Hnd, in_or_app. left. exact H. }
  destruct (contains k text_lower) eqn:E.
  - rewrite firstn_app_In by exact Hk. split; [auto | intros [_ H]; exact H].
  - split; [|intros [H _]; discriminate].
    intros H. apply firstn_In in H. apply in_app_or in H.
    destruct H as [H | H]; [contradiction|].
    apply filter_In in H. destruct H as [H _].
    apply NoDup_remove_2 in Hnd. exfalso. apply Hnd, in_or_app.
    right. exact H.
Qed.

Lemma firstn_map (A B : Type) (f : A -> B) (n : nat) (l : list A) :
  firstn n (map f l) = map f (firstn n l).
Proof.
  revert n. induction l as [|x l IH]; intros [|n]; simpl; auto.
  rewrite IH. reflexivity.
Qed.

Lemma NoDup_firstn (A : Type) (n : nat) (l : list A) :
  NoDup l -> NoDup (firstn n l).
Proof.
  intros H. revert n. induction H as [|x l Hx _ IH]; intros [|n]; simpl;
    constructor; auto.
  intros Hin. apply Hx. apply firstn_In in Hin. exact Hin.
Qed.

Lemma vocabularies_distinct :
  NoDup condition_keywords /\ NoDup (map py_title condition_keywords) /\
  NoDup prediction_conditions /\ NoDup (map py_title prediction_conditions).
Proof using Type.
  repeat split; repeat constructor; not_among.
Qed.

Lemma NoDup_map_inj (f : str -> str) (l : list str) (x y : str) :
  NoDup (map f l) -> In x l -> In y l -> f x = f y -> x = y.
Proof.
  induction l as [|z l IH]; [intros _ []|].
  simpl. intros Hl Hx Hy Hf. inversion Hl as [|? ? Hz Hl']; subst.
  destruct Hx as [-> | Hx], Hy as [-> | Hy]; auto.
  - exfalso. apply Hz. rewrite Hf. apply in_map, Hy.
  - exfalso. apply Hz. rewrite <- Hf. apply in_map, Hx.
Qed.

Lemma NoDup_map_sub (f : str -> str) (l sub : list str) :
  NoDup (map f l) -> NoDup sub -> (forall x, In x sub -> In x l) ->
  NoDup (map f sub).
Proof.
  intros Hl Hsub Hin. induction Hsub as [|x sub Hx _ IH]; simpl;
    constructor.
  - intros H. apply in_map_iff in H. destruct H as [y [Hy Hys]].
    assert (y = x).
    { apply (@NoDup_map_inj f l); auto.
      - apply Hin. right. exact Hys.
      - apply Hin. left. reflexivity. }
    subst y. contradiction.
  - apply IH. intros y Hy. apply Hin. right. exact Hy.
Qed.

(** The conditions and the predictions extracted from a text: at most
    five, no name twice, and every name is the title-cased form of a
    vocabulary entry that occurs in the lower-cased text. *)
Theorem extracted_conditions_sound (text : str) :
  ((length (_extract_conditions text) <= 5)%nat /\
   NoDup (map condition (_extract_conditions text)) /\
   forall c, In c (_extract_conditions text) ->
     probability c = float_half /\
     exists keyword, In keyword condition_keywords /\
       contains keyword (lower text) = true /\
       condition c = py_title keyword)
  /\
  ((length (_extract_predictions text) <= 5)%nat /\
   NoDup (map predicted_condition (_extract_predictions text)) /\
   forall p, In p (_extract_predictions text) ->
     exists keyword, In keyword prediction_conditions /\
       contains keyword (lower text) = true /\
       predicted_condition p = py_title keyword).
Proof.
  destruct vocabularies_distinct as [Hc [Hct [Hp Hpt]]].
  unfold _extract_conditions, _extract_predictions.
  rewrite !keyword_hits_filter. split.
  - split; [apply firstn_le_length|]. split.
    + rewrite <- firstn_map, map_map. cbn [condition].
      apply NoDup_firstn.
      apply NoDup_map_sub with (l := condition_keywords);
        [exact Hct | apply NoDup_filter, Hc |].
      intros x Hx. apply filter_In in Hx. apply Hx.
    + intros c Hin. apply firstn_In, in_map_iff in Hin.
      destruct Hin as [k [<- Hk]]. apply filter_In in Hk.
      split; [reflexivity|]. exists k. cbn [condition].
      destruct Hk as [Hk1 Hk2]. auto.
  - split; [apply firstn_le_length|]. split.
    + rewrite <- firstn_map, map_map. cbn [predicted_condition].
      apply NoDup_firstn.
      apply NoDup_map_sub with (l := prediction_conditions);
        [exact Hpt | apply NoDup_filter, Hp |].
      intros x Hx. apply filter_In in Hx. apply Hx.
    + intros p Hin. apply firstn_In, in_map_iff in Hin.
      destruct Hin as [k [<- Hk]]. apply filter_In in Hk.
      exists k. cbn [predicted_condition].
      destruct Hk as [Hk1 Hk2]. auto.
Qed.

(** The cap drops conditions silently.  A vocabulary entry is reported
    exactly when it occurs in the lower-cased text and fewer than five of
    the entries listed before it occur as well; so "migraine" and the
    entries after it can go unreported although the text mentions them. *)
Theorem extracted_conditions_capped (text : str) (before after : list str)
    (keyword : str) :
  condition_keywords = before ++ keyword :: after ->
  (In (py_title keyword) (map condition (_extract_conditions text))
   <-> contains keyword (lower text) = true /\
       (length (keyword_hits before (lower text)) < 5)%nat).
Proof.
  intros Hv. destruct vocabularies_distinct as [Hc [Hct _]].
  rewrite <- (capped_hits 5 before after keyword (lower text))
    by (rewrite <- Hv; exact Hc).
  unfold _extract_conditions. rewrite <- Hv, firstn_map, map_map.
  cbn [condition]. rewrite in_map_iff. split.
  - intros [k [Ht Hk]].
    assert (Hkv : In k condition_keywords).
    { apply firstn_In in Hk. rewrite keyword_hits_filter in Hk.
      apply filter_In in Hk. apply Hk. }
    assert (Hkw : In keyword condition_keywords)
      by (rewrite Hv; apply in_or_app; right; left; reflexivity).
    assert (k = keyword); [|subst; exact Hk].
    apply (@NoDup_map_inj py_title condition_keywords); auto.
  - intros H. exists keyword. auto.
Qed.

(** ** Health tips *)

Lemma firstn_substring (n : nat) (s : str) : substring (firstn n s) s.
Proof.
  exists [], (skipn n s). simpl. symmetry. apply firstn_skipn.
Qed.

Lemma lstrip_substring (chars s : str) : substring (lstrip chars s) s.
Proof.
  unfold lstrip, lstrip_by.
  destruct (dropwhile_suffix (fun c => mem c chars) s) as [pre [H _]].
  exists pre, []. rewrite app_nil_r. exact H.
Qed.

Lemma tip_of_within (tip_text : str) :
  icon (tip_of tip_text) = `"health_and_safety" /\
  ~ In 58 (title (tip_of tip_text)) /\
  substring (title (tip_of tip_text)) tip_text /\
  substring (description (tip_of tip_text)) tip_text.
Proof.
  unfold tip_of. rewrite contains_colon.
  destruct (mem 58 tip_text) eqn:E.
  - apply mem_In in E.
    destruct (split1_cut 58 tip_text E) as [a [b [Hs [Ht Ha]]]].
    rewrite Hs. cbn [nth title description icon].
    split; [reflexivity|]. split; [|split].
    + eapply substring_not_In; [apply substring_strip | exact Ha].
    + apply (substring_trans (substring_strip a)).
      exists [], (58 :: b). exact Ht.
    + apply (substring_trans (substring_strip b)).
      exists (a ++ [58]), []. rewrite app_nil_r, <- app_assoc. exact Ht.
  - cbn [title description icon]. split; [reflexivity|]. split; [|split].
    + eapply substring_not_In; [apply firstn_substring|].
      intros H. apply mem_In in H. congruence.
    + apply firstn_substring.
    + apply substring_refl.
Qed.

Lemma collect_tips_within (text : str) (lines : list str) :
  Forall (fun line => substring line text) lines ->
  Forall (tip_from text) (collect_tips lines).
Proof.
  induction 1 as [|line lines Hline _ IH]; simpl; [constructor|].
  destruct (is_list_item (strip line)); [|exact IH].
  destruct (strip (lstrip tip_enumerator_chars (strip line)))
    as [|c r] eqn:E; [exact IH|].
  constructor; [|exact IH].
  assert (Hsub : substring (c :: r) text).
  { rewrite <- E. apply (substring_trans (substring_strip _)).
    apply (substring_trans (lstrip_substring _ _)).
    apply (substring_trans (substring_strip line) Hline). }
  destruct (tip_of_within (c :: r)) as [Hi [Hc [Ht Hd]]].
  repeat split; eauto using substring_trans.
Qed.

(** The tips parser returns between one and ten tips, never none.  Every
    tip carries the fixed icon and a title without a colon; its description
    is a piece of the text, and so is its title unless it is the stand-in
    title "Health Tip" of the single tip made from a text with no list
    item. *)
Theorem health_tips_shape (text : str) :
  (1 <= length (_parse_health_tips text) <= 10)%nat /\
  Forall (fun t =>
            icon t = `"health_and_safety" /\ ~ In 58 (title t) /\
            substring (description t) text /\
            (substring (title t) text \/ title t = `"Health Tip"))
    (_parse_health_tips text).
Proof using Type.
  unfold _parse_health_tips.
  assert (Hlines : Forall (fun line => substring line text) (split 10 text)).
  { apply Forall_forall. intros line H. apply (substring_line _ _ _ H). }
  pose proof (collect_tips_within Hlines) as Hc.
  destruct (collect_tips (split 10 text)) as [|t ts].
  - split; [simpl; lia|]. constructor; [|constructor].
    cbn [icon title description]. split; [reflexivity|].
    split; [not_among|].
    split; [apply substring_refl | right; reflexivity].
  - split; [split; [apply firstn_not_nil; discriminate
                   | apply firstn_le_length]|].
    apply Forall_firstn. revert Hc. apply Forall_impl.
    intros a [Hi [Hn [Ht Hd]]]. auto.
Qed.

(** ** Summaries *)



(** ** Family risks *)

Lemma scan_conditions_run (conditions : list str) (level : str)
    (diseases : list str) :
  forall factors current,
    scan_conditions conditions level diseases (factors, current)
    = (factors ++ map py_title (filter (found_in diseases) conditions),
       match filter (found_in diseases) conditions with
       | [] => current
       | _ :: _ => level
       end).
Proof.
  unfold scan_conditions.
  induction conditions as [|c cs IH]; intros factors current; simpl.
  - rewrite app_nil_r. reflexivity.
  - fold (found_in diseases c). destruct (found_in diseases c); cbn [fst].
    + rewrite IH, <- app_assoc. simpl.
      destruct (filter (found_in diseases) cs); reflexivity.
    + apply IH.
Qed.

Lemma found_in_family (conditions : list str)
    (family_members : list FamilyMember) :
  filter (found_in (all_conditions family_members)) conditions <> []
  <-> family_has conditions family_members.
Proof.
  split.
  - destruct (filter _ conditions) as [|c cs] eqn:E; [congruence|].
    intros _. assert (Hc : In c (c :: cs)) by (left; reflexivity).
    rewrite <- E in Hc. apply filter_In in Hc. destruct Hc as [Hin Hf].
    unfold found_in in Hf. apply existsb_exists in Hf.
    destruct Hf as [d [Hd Hcd]]. unfold all_conditions in Hd.
    apply in_flat_map in Hd. destruct Hd as [m [Hm Hdm]].
    apply in_map_iff in Hdm. destruct Hdm as [disease [<- Hdis]].
    unfold diseases_of in Hdis.
    destruct (chronic_diseases m) as [ds|] eqn:Em; [|destruct Hdis].
    exists m, ds, disease, c. repeat split; auto.
    apply substring_contains, Hcd.
  - intros [m [ds [disease [c [Hm [Hds [Hdis [Hc Hsub]]]]]]]] Hnil.
    assert (Hin : In c (filter (found_in (all_conditions family_members))
                          conditions)).
    { apply filter_In. split; [exact Hc|]. unfold found_in.
      apply existsb_exists. exists (lower disease).
      split; [|apply substring_contains, Hsub].
      unfold all_conditions. apply in_flat_map. exists m.
      split; [exact Hm|]. apply in_map. unfold diseases_of.
      rewrite Hds. exact Hdis. }
    rewrite Hnil in Hin. destruct Hin.
Qed.

Lemma assess_family_risks_run (family_members : list FamilyMember) :
  let high := filter (found_in (all_conditions family_members))
                high_risk_conditions in
  let medium := filter (found_in (all_conditions family_members))
                  medium_risk_conditions in
  _assess_family_risks family_members
  = match high, medium with
    | _ :: _, _ =>
        {| risk_level := `"high"; risk_factors := map py_title high;
           recommendation :=
             `"Regular monitoring and preventive care recommended" |}
    | [], _ :: _ =>
        {| risk_level := `"medium"; risk_factors := map py_title medium;
           recommendation :=
             `"Regular monitoring and preventive care recommended" |}
    | [], [] =>
        {| risk_level := `"low"; risk_factors := [];
           recommendation := `"Maintain healthy lifestyle" |}
    end.
Proof.
  cbv zeta. unfold _assess_family_risks. rewrite scan_conditions_run.
  destruct (filter _ high_risk_conditions) as [|h hs]; cbn [snd fst app].
  - change (str_eqb `"low" `"low") with true. cbv iota.
    rewrite scan_conditions_run.
    destruct (filter _ medium_risk_conditions); reflexivity.
  - reflexivity.
Qed.

(** The family risk level is "high" exactly when some member has a disease
    whose lower-cased name contains a high-risk condition; "medium" exactly
    when none has but some disease contains a medium-risk condition; "low"
    exactly when neither is the case.  Members without diseases count for
    nothing. *)
Theorem family_risk_level (family_members : list FamilyMember) :
  (risk_level (_assess_family_risks family_members) = `"high"
   <-> family_has high_risk_conditions family_members) /\
  (risk_level (_assess_family_risks family_members) = `"medium"
   <-> ~ family_has high_risk_conditions family_members /\
       family_has medium_risk_conditions family_members) /\
  (risk_level (_assess_family_risks family_members) = `"low"
   <-> ~ family_has high_risk_conditions family_members /\
       ~ family_has medium_risk_conditions family_members).
Proof using Type.
  rewrite assess_family_risks_run.
  rewrite <- !found_in_family.
  assert (Hne : forall (x : str) (xs : list str), x :: xs <> [])
    by discriminate.
  assert (Hnil : ~ (@nil str) <> []) by (intros H; apply H; reflexivity).
  destruct (filter _ high_risk_conditions) as [|h hs];
    destruct (filter _ medium_risk_conditions) as [|m ms];
    cbn [risk_level];
    (split; [split; first [ discriminate | intros _; apply Hne
                          | intros _; reflexivity
                          | intros H; contradiction (Hnil H) ]|]);
    (split; split;
     first [ discriminate | reflexivity
           | intros _; split; first [ exact Hnil | apply Hne ]
           | intros [H1 H2];
             first [ reflexivity | contradiction (Hnil H2)
                   | contradiction (H1 (Hne _ _))
                   | contradiction (H2 (Hne _ _)) ] ]).
Qed.

(** The factors listed follow the level: none when it is "low"; when it is
    "high" only high-risk conditions, each at most once, so that a family
    with diabetes and asthma is told of "Diabetes" alone; when it is
    "medium" only medium-risk conditions.  The recommendation is "Maintain
    healthy lifestyle" for "low" and the monitoring text otherwise. *)
Theorem family_risk_factors (family_members : list FamilyMember) :
  let r := _assess_family_risks family_members in
  (risk_factors r = [] <-> risk_level r = `"low") /\
  NoDup (risk_factors r) /\
  (risk_level r = `"high" ->
   Forall (fun f => In f (map py_title high_risk_conditions))
     (risk_factors r)) /\
  (risk_level r = `"medium" ->
   Forall (fun f => In f (map py_title medium_risk_conditions))
     (risk_factors r)) /\
  (recommendation r = `"Maintain healthy lifestyle" <->
   risk_level r = `"low").
Proof using Type.
  cbv zeta. rewrite assess_family_risks_run.
  assert (Hnd : NoDup (map py_title high_risk_conditions) /\
                NoDup (map py_title medium_risk_conditions) /\
                NoDup high_risk_conditions /\ NoDup medium_risk_conditions).
  { repeat split; repeat constructor; not_among. }
  destruct Hnd as [Hh [Hm [Hh' Hm']]].
  assert (Hsub : forall l f, Forall (fun x => In x (map py_title l))
                               (map py_title (filter f l))).
  { intros l f. apply Forall_forall. intros x Hx.
    apply in_map_iff in Hx. destruct Hx as [y [<- Hy]].
    apply in_map. apply filter_In in Hy. apply Hy. }
  assert (Hnodup : forall l f, NoDup (map py_title l) -> NoDup l ->
                     NoDup (map py_title (filter f l))).
  { intros l f H1 H2. apply NoDup_map_sub with (l := l); auto.
    - apply NoDup_filter, H2.
    - intros x Hx. apply filter_In in Hx. apply Hx. }
  pose proof (Hsub high_risk_conditions
                (found_in (all_conditions family_members))) as Sh.
  pose proof (Hsub medium_risk_conditions
                (found_in (all_conditions family_members))) as Sm.
  pose proof (Hnodup high_risk_conditions
                (found_in (all_conditions family_members)) Hh Hh') as Nh.
  pose proof (Hnodup medium_risk_conditions
                (found_in (all_conditions family_members)) Hm Hm') as Nm.
  destruct (filter _ high_risk_conditions) as [|h hs];
    destruct (filter _ medium_risk_conditions) as [|m ms];
    cbn [risk_level risk_factors recommendation];
    (split; [split; (reflexivity || discriminate)|]);
    (split; [assumption || constructor|]);
    (split; [intros; (assumption || discriminate)|]);
    (split; [intros; (assumption || discriminate)|]);
    split; (reflexivity || discriminate).
Qed.

(** ** The chat route *)

Lemma detect_language_en_or_bn (text : str) :
  detect_language text = `"en" \/ detect_language text = `"bn".
Proof.
  rewrite detect_language_cases. destruct (existsb is_bengali text); auto.
Qed.

(** What the route passes on is never "auto" or empty when it was
    detected, so the service keeps it as it is: the service's own detector,
    with its ratio, is never consulted for a request that comes through the
    route.  A request with "auto" or no locale is handled as "bn" exactly
    when its message holds a Bengali character. *)
Theorem chat_route_language (request : ChatRequest) :
  resolve_language (route_language request) (request_message request)
  = route_language request
  /\ (str_eqb (request_language request) `"auto"
      || str_eqb (request_language request) [] = true ->
      (route_language request = `"bn" <->
       exists c, In c (request_message request) /\ is_bengali c = true)).
Proof.
  unfold route_language, resolve_language. split.
  - destruct (str_eqb (request_language request) `"auto") eqn:Ea; cbn [orb].
    + destruct (detect_language_en_or_bn (request_message request))
        as [-> | ->]; reflexivity.
    + destruct (str_eqb (request_language request) []) eqn:Ee.
      * destruct (detect_language_en_or_bn (request_message request))
          as [-> | ->]; reflexivity.
      * rewrite ?Ee, ?Ea. reflexivity.
  - intros ->. rewrite detect_language_cases, <- existsb_exists.
    destruct (existsb is_bengali (request_message request)); split;
      try reflexivity; discriminate.
Qed.

(** The route never answers with an HTTP error of its own making: the
    service call does not raise.  A successful response carries the locale
    the route passed on, a text, suggestions and the fixed confidence; a
    failed one carries the fixed error text and nothing else. *)
Theorem chat_route_responds (self : AIService) (request : ChatRequest)
    (log : list event) :
  exists response log',
    chat_route self request log = (inr response, log')
    /\ ((response_success response = true /\
         response_language response = Some (route_language request) /\
         (exists text, response_message response = Some text) /\
         response_suggestions response
         = Some (_generate_suggestions (request_message request)
                   (route_language request)) /\
         response_confidence response = Some float_confidence /\
         response_error response = None)
        \/ (response_success response = false /\
            response_error response
            = Some `"All AI services are unavailable" /\
            response_message response = None /\
            response_language response = None /\
            response_suggestions response = None)).
Proof.
  unfold chat_route.
  destruct (chat_run self (request_message request) (route_language request)
              match request_history request with
              | Some history => history
              | None => []
              end
              (request_use_medical_mode request) (request_context request)
              log) as [d [Hrun [Hlang [Hok Hko]]]].
  rewrite Hrun. destruct (chat_route_language request) as [Hres _].
  rewrite Hres in Hlang. destruct (success d) eqn:Hd.
  - eexists. eexists. split; [reflexivity|]. left.
    cbn [response_success response_language response_message
         response_suggestions response_confidence response_error].
    rewrite Hlang. repeat split; auto.
    destruct (Hok eq_refl) as [[r [_ [_ Hm]]] | [_ [text [_ [_ Hm]]]]];
      rewrite Hm; eexists; reflexivity.
  - eexists. eexists. split; [reflexivity|]. right.
    cbn [response_success response_language response_message
         response_suggestions response_confidence response_error].
    destruct (Hko eq_refl) as [_ [_ He]]. rewrite He. auto.
Qed.

(** The suggestions are two or three.  For the locale "en" they are all in
    ASCII; for "bn" each holds Bengali characters. *)
Theorem suggestions_follow_locale (msg lang : str) :
  (2 <= length (_generate_suggestions msg lang) <= 3)%nat /\
  (lang = `"en" ->
   forallb all_ascii (_generate_suggestions msg lang) = true) /\
  (lang = `"bn" ->
   forallb (existsb is_bengali) (_generate_suggestions msg lang) = true).
Proof.
  unfold _generate_suggestions. split; [|split].
  - destruct (str_eqb lang `"en"), (str_eqb lang `"bn");
      repeat match goal with
             | |- context [if ?b then _ else _] => destruct b
             end; simpl; lia.
  - intros ->. change (str_eqb `"en" `"en") with true.
    change (str_eqb `"en" `"bn") with false. cbv iota.
    repeat match goal with
           | |- context [if ?b then _ else _] => destruct b
           end; reflexivity.
  - intros ->. change (str_eqb `"bn" `"en") with false.
    change (str_eqb `"bn" `"bn") with true. cbv iota.
    repeat match goal with
           | |- context [if ?b then _ else _] => destruct b
           end; reflexivity.
Qed.

End Backend.

(** * Closed instances

    The statements below fix the Unicode tables where a definition takes
    them, or hold for every choice of them. *)

(** C3, as first stated, fails: the Bengali letter KA followed by four
    tabs has one non-whitespace character, a Bengali one, and yet
    [_detect_language] answers "en", because the tabs are counted; and five
    Latin letters followed by KA are below the ratio, yet the helper
    [detect_language] answers "bn". *)
Lemma detect_language_whitespace_counterexample :
  ~ detects_by_whitespace_ratio _detect_language [0x995; 9; 9; 9; 9]%N /\
  ~ detects_by_whitespace_ratio detect_language (`"aaaaa" ++ [0x995%N]).
Proof.
  split.
  - intros [[_ H] _].
    assert (E : _detect_language [0x995; 9; 9; 9; 9]%N = `"bn")
      by (apply H; vm_compute; reflexivity).
    vm_compute in E. discriminate E.
  - intros [[H _] _].
    assert (E : (non_whitespace_count (`"aaaaa" ++ [0x995%N])
                 < 5 * bengali_count (`"aaaaa" ++ [0x995%N]))%N)
      by (apply H; vm_compute; reflexivity).
    vm_compute in E. discriminate E.
Qed.

(** C8, as first stated, fails: in the text "-" a line qualifies, its
    entry is empty and dropped, and the parser returns the default list
    where the wording gives the empty one. *)
Lemma extract_recommendations_counterexample :
  ~ exists isdigit_ext,
      _extract_recommendations isdigit_ext `"-"
      = recommendations_as_stated isdigit_ext `"-".
Proof.
  intros [isdigit_ext H]. vm_compute in H. discriminate H.
Qed.

(** Two numbered lines and a line of prose, with no digit known outside
    ASCII: the text meets the condition of
    [extract_recommendations_entries], and the two entries come back. *)
Lemma extract_recommendations_entries_witness :
  ascii_numbered (fun _ => false)
    (`"1. Drink water" ++ [10%N] ++ `"2. Sleep 8 hours" ++ [10%N]
       ++ `"Some prose") = true
  /\ _extract_recommendations (fun _ => false)
       (`"1. Drink water" ++ [10%N] ++ `"2. Sleep 8 hours" ++ [10%N]
          ++ `"Some prose")
     = [`"Drink water"; `"Sleep 8 hours"].
Proof.
  assert (H : ascii_numbered (fun _ => false)
                (`"1. Drink water" ++ [10%N] ++ `"2. Sleep 8 hours" ++ [10%N]
                   ++ `"Some prose") = true) by (vm_compute; reflexivity).
  exact (conj H (proj1 (extract_recommendations_entries (fun _ => false))
                   _ H)).
Defined.

(** The locale "fr" meets the conditions of [chat_unknown_locale]. *)
Lemma chat_unknown_locale_witness :
  `"fr" <> `"bn" /\ `"fr" <> [] /\ `"fr" <> `"auto" /\
  exists d log',
    chat (fun _ : unit => []) {| groq_client := None; gemini_model := None |}
      `"bonjour" `"fr" [] true None []
    = (inr d, log')
    /\ language d = Some `"fr".
Proof.
  assert (H1 : `"fr" <> `"bn") by discriminate.
  assert (H2 : `"fr" <> []) by discriminate.
  assert (H3 : `"fr" <> `"auto") by discriminate.
  repeat (split; [assumption|]).
  exact (proj2 (proj2 (chat_unknown_locale (fun _ : unit => []) H1 H2 H3
                         {| groq_client := None; gemini_model := None |}
                         `"bonjour" [] true None []))).
Defined.

(** ** Instances of the further properties *)

(** A single Bengali letter: both detectors answer "bn". *)
Lemma service_bn_implies_helper_bn_witness :
  _detect_language [0x995%N] = `"bn" /\ detect_language [0x995%N] = `"bn".
Proof.
  assert (H : _detect_language [0x995%N] = `"bn") by (vm_compute; reflexivity).
  exact (conj H (service_bn_implies_helper_bn [0x995%N] H)).
Defined.

(** A space put before a Bengali letter changes nothing. *)
Lemma detect_language_ignores_blanks_witness :
  _detect_language (`"a" ++ 32%N :: [0x995%N])
  = _detect_language (`"a" ++ [0x995%N]).
Proof.
  exact (detect_language_ignores_blanks `"a" [0x995%N] (or_introl eq_refl)).
Defined.

(** A primary provider that answers "Rest." is the only one called. *)
Lemma chat_primary_success_witness :
  exists d,
    chat (fun _ : unit => [])
      {| groq_client :=
           Some (fun _ _ => inr {| reply_content := `"Rest.";
                                   prompt_tokens := 10;
                                   completion_tokens := 2;
                                   total_tokens := 12 |});
         gemini_model := Some (fun _ => inr `"unused") |}
      `"hello" `"en" [] true None []
    = (inr d,
       [] ++ [GroqCall default_groq_model
                (primary_request (fun _ : unit => []) `"hello" `"en" [] true
                   None)])
    /\ success d = true
    /\ message d = Some `"Rest."
    /\ model_used d = Some default_groq_model.
Proof.
  exact (chat_primary_success (fun _ : unit => [])
           {| groq_client :=
                Some (fun _ _ => inr {| reply_content := `"Rest.";
                                        prompt_tokens := 10;
                                        completion_tokens := 2;
                                        total_tokens := 12 |});
              gemini_model := Some (fun _ => inr `"unused") |}
           `"hello" `"en" [] true None [] eq_refl).
Defined.

(** The symptom "loss of consciousness" alone: the level is "high" and
    urgent care is not flagged. *)
Lemma high_risk_without_urgent_care_witness :
  forallb all_ascii [`"loss of consciousness"] = true /\
  _determine_risk_level (fun _ _ c => [c]) [`"loss of consciousness"] None
  = `"high" /\
  _check_urgent_care (fun _ _ c => [c]) [`"loss of consciousness"] None
  = false /\
  contains `"loss of consciousness"
    (join `" " (map (lower (fun _ _ c => [c])) [`"loss of consciousness"]))
  = true.
Proof.
  assert (H1 : forallb all_ascii [`"loss of consciousness"] = true)
    by (vm_compute; reflexivity).
  assert (H2 : _determine_risk_level (fun _ _ c => [c])
                 [`"loss of consciousness"] None = `"high")
    by (vm_compute; reflexivity).
  assert (H3 : _check_urgent_care (fun _ _ c => [c])
                 [`"loss of consciousness"] None = false)
    by (vm_compute; reflexivity).
  exact (conj H1 (conj H2 (conj H3
           (high_risk_without_urgent_care (fun _ _ c => [c])
              [`"loss of consciousness"] None H1 H2 H3)))).
Defined.

(** "migraine" stands sixth in the vocabulary, after five entries. *)
Lemma extracted_conditions_capped_witness :
  condition_keywords
  = [`"common cold"; `"flu"; `"infection"; `"diabetes"; `"hypertension"]
    ++ `"migraine"
    :: [`"allergy"; `"gastritis"; `"anxiety"; `"depression"]
  /\ (In (py_title `"migraine")
        (map (@condition unit)
           (_extract_conditions (fun _ _ c => [c]) tt `"flu or migraine"))
      <-> contains `"migraine" (lower (fun _ _ c => [c]) `"flu or migraine")
          = true /\
          (length
             (keyword_hits
                [`"common cold"; `"flu"; `"infection"; `"diabetes";
                 `"hypertension"]
                (lower (fun _ _ c => [c]) `"flu or migraine")) < 5)%nat).
Proof.
  exact (conj eq_refl
           (extracted_conditions_capped (fun _ _ c => [c]) tt
              `"flu or migraine"
              [`"common cold"; `"flu"; `"infection"; `"diabetes";
               `"hypertension"]
              [`"allergy"; `"gastritis"; `"anxiety"; `"depression"]
              `"migraine" eq_refl)).
Defined.
